(** * synccli: the remote synchronisation engine

    A shallow embedding of the Go package [remote] of synccli: the SSH
    transport client (remote/ssh_client.go) and the synchronisation engine
    (inventory collection, reconciliation planner and plan executor).

    Conventions of the embedding.
    - Go's [int] and [int64] are integers in [Z], wrapped to 64 bits where
      the code does arithmetic on them.
    - A Go [error] is a record holding its message and whether
      [os.IsNotExist] recognises it; [nil] is [None].
    - A Go [map[string]*FileInfo] is a [gmap string FileInfo.t]. Go leaves
      the iteration order of a map unspecified; the loops below run over
      [map_to_list], and every statement proved about their results is
      independent of that order.
    - Everything outside the process (the local file system, the network,
      the remote host, the scanner process, the terminal) is an oracle
      record; calls to the transport client and lines written to the
      terminal are appended to a trace of events.
    - Functions of Go's standard library and of golang.org/x/crypto whose
      text is not part of the repository are fields of a type class. *)

From Stdlib Require Import ZArith Lia Ascii DecimalString.
From stdpp Require Import base gmap strings list.

Open Scope string_scope.
Open Scope Z_scope.
Open Scope list_scope.

(** ** Go values *)

(** The value of a Go [error]: what [Error()] returns, and whether
    [os.IsNotExist] holds of it. *)
Record error := mkError { Error : string; IsNotExist : bool }.

(** [fmt.Errorf(prefix + "%v", err)]: a fresh error that carries the text of
    [err] and is no longer recognised by [os.IsNotExist]. *)
Definition Errorf (prefix : string) (err : error) : error :=
  mkError (prefix +:+ Error err) false.

(** [fmt.Errorf(msg)] without arguments. *)
Definition errorString (msg : string) : error := mkError msg false.

(** Two's-complement wrap-around of a 64-bit signed integer. *)
Definition wrap64 (x : Z) : Z := (x + 2 ^ 63) mod 2 ^ 64 - 2 ^ 63.

(** [x++] on an [int]. *)
Definition incr (x : Z) : Z := wrap64 (x + 1).

(** [len(s)] as an [int]. *)
Definition len {A} (l : list A) : Z := Z.of_nat (length l).

(** [fmt.Sprintf("%d", n)]. *)
Definition itoa (n : Z) : string := NilZero.string_of_int (Z.to_int n).

(** A [time.Time], as the instant it denotes: nanoseconds since the epoch. *)
Abbreviation Time := Z (only parsing).

(** [t.After(u)]. *)
Definition After (t u : Time) : bool := u <? t.

(** [time.Unix(sec, 0)]. *)
Definition time_Unix (sec : Z) : Time := sec * 1000000000.

(** [strings.Contains(s, substr)]. *)
Fixpoint Contains (s substr : string) : bool :=
  String.prefix substr s ||
  match s with
  | EmptyString => false
  | String _ s' => Contains s' substr
  end.

(** [strings.Split(s, sep)] for a separator of one byte, the only way the
    code calls it (a newline and a tab). *)
Fixpoint Split (s : string) (sep : ascii) : list string :=
  match s with
  | EmptyString => [EmptyString]
  | String c s' =>
      if Ascii.eqb c sep then EmptyString :: Split s' sep
      else match Split s' sep with
           | [] => [String c EmptyString]
           | part :: parts => String c part :: parts
           end
  end.

(** The white space of [strings.TrimSpace] within ASCII. *)
Definition isSpace (c : ascii) : bool :=
  let n := nat_of_ascii c in
  (Nat.eqb n 9 || Nat.eqb n 10 || Nat.eqb n 11 || Nat.eqb n 12
   || Nat.eqb n 13 || Nat.eqb n 32)%bool.

Fixpoint TrimLeft (s : string) : string :=
  match s with
  | EmptyString => EmptyString
  | String c s' => if isSpace c then TrimLeft s' else s
  end.

Fixpoint TrimRight (s : string) : string :=
  match s with
  | EmptyString => EmptyString
  | String c s' =>
      match TrimRight s' with
      | EmptyString => if isSpace c then EmptyString else String c EmptyString
      | rest => String c rest
      end
  end.

(** [strings.TrimSpace(s)]. *)
Definition TrimSpace (s : string) : string := TrimRight (TrimLeft s).

Definition tab : ascii := ascii_of_nat 9.
Definition newline : ascii := ascii_of_nat 10.

(** ** Library functions taken as given *)

(** path/filepath, fmt and time. *)
Class GoStd := {
  (** [filepath.Join(a, b)] *)
  filepath_Join : string -> string -> string;
  (** [filepath.IsAbs(p)] *)
  filepath_IsAbs : string -> bool;
  (** [filepath.Base(p)] *)
  filepath_Base : string -> string;
  (** [filepath.Dir(p)] *)
  filepath_Dir : string -> string;
  (** [matched, _ := filepath.Match(pattern, name)] *)
  filepath_Match : string -> string -> bool;
  (** [filepath.Rel(base, target)]; [None] when it returns an error *)
  filepath_Rel : string -> string -> option string;
  (** [time.Parse("2006-01-02T15:04:05Z", s)]; [None] on an error *)
  time_Parse : string -> option Time;
  (** the [int64] left in [size] by [fmt.Sscanf(s, "%d", &size)] *)
  Sscanf_d : string -> Z;
  (** [int64(timestamp)] after [fmt.Sscanf(s, "%f", &timestamp)] *)
  Sscanf_f : string -> Z;
  (** what [%s] prints for the pointer [&s] *)
  Sprintf_ptr : string -> string
}.

(** An [ssh.PublicKey]: its [Type()] and the line that
    [ssh.MarshalAuthorizedKey] makes of it. *)
Record PublicKey := mkPublicKey { keyType : string; authorizedKey : string }.

(** An [ssh.Signer], by the key material it was parsed from. *)
Record Signer := mkSigner { signerKey : string }.

(** The callback that [knownhosts.New] builds from a known-hosts file:
    host name, remote address and presented key to verdict. *)
Definition KnownHostsCheck : Type :=
  string -> string -> PublicKey -> option error.

(** golang.org/x/crypto/ssh and its knownhosts package. *)
Class GoSSH := {
  (** [ssh.ParsePrivateKey(pem)] *)
  ssh_ParsePrivateKey : string -> Signer + error;
  (** [ssh.ParsePrivateKeyWithPassphrase(pem, passphrase)] *)
  ssh_ParsePrivateKeyWithPassphrase : string -> string -> Signer + error;
  (** [knownhosts.New] applied to the text of a known-hosts file *)
  knownhosts_New : string -> KnownHostsCheck + error
}.

(** ** Data model *)

(** remote/ssh_client.go *)
Module SSHConfig.
Record t := mk {
  Host : string;
  Port : Z;
  Username : string;
  Password : string;
  KeyFile : string;
  Timeout : Z;
  KnownHostsFile : string;
  StrictHostCheck : bool
}.
End SSHConfig.

Module SSHClient.
(** [sshClient] and [sftpClient] hold the address the live handle was
    dialled to. *)
Record t := mk {
  config : SSHConfig.t;
  sshClient : option string;
  sftpClient : option string;
  connected : bool
}.
End SSHClient.

Inductive AuthMethod :=
| Password (secret : string)
| PublicKeys (signer : Signer)
| PublicKeysCallback (socket : string).

(** remote/config.go *)
Module RemoteConfig.
Record t := mk {
  Name : string;
  SSH : SSHConfig.t;
  RemoteBase : string;
  Compression : bool;
  Encryption : bool;
  Incremental : bool;
  KnownHostsFile : string;
  StrictHostCheck : bool;
  ExcludeList : list string
}.
End RemoteConfig.

(** The synchronisation engine. *)
Definition SyncDirection : Type := Z.
Definition SyncToRemote : SyncDirection := 0.
Definition SyncFromRemote : SyncDirection := 1.
Definition SyncBoth : SyncDirection := 2.

Module SyncOptions.
Record t := mk {
  Direction : SyncDirection;
  DryRun : bool;
  Force : bool;
  Verbose : bool;
  Progress : bool;
  DeleteExtra : bool
}.
End SyncOptions.

Module SyncResult.
Record t := mk {
  TotalFiles : Z;
  UploadedFiles : Z;
  DownloadFiles : Z;
  DeletedFiles : Z;
  SkippedFiles : Z;
  ErrorFiles : Z;
  TotalSize : Z;
  Duration : Z;
  Errors : list string
}.
End SyncResult.

Module FileInfo.
Record t := mk {
  Path : string;
  Size : Z;
  ModTime : Time;
  IsDir : bool;
  Hash : string
}.
End FileInfo.

Module SyncItem.
Record t := mk {
  LocalPath : string;
  RemotePath : string;
  Size : Z;
  Action : string
}.
End SyncItem.

Module SyncPlan.
Record t := mk {
  Upload : list SyncItem.t;
  Download : list SyncItem.t;
  Delete : list SyncItem.t
}.
End SyncPlan.

Module RemoteSyncEngine.
(** [pythonClient] is the scanner process, reached through the oracle
    below. *)
Record t := mk {
  config : RemoteConfig.t;
  sshClient : SSHClient.t;
  options : SyncOptions.t
}.
End RemoteSyncEngine.

(** One file as the scanner reports it, with the fields the engine reads. *)
Module FileMetadata.
Record t := mk {
  Path : string;
  Size : Z;
  ModifiedTime : string;
  Hash : string
}.
End FileMetadata.

(** ** State and the outside world *)

(** Computations that thread a state: the local file system for the
    connection code, the trace of events for the engine. *)
Definition State (S A : Type) : Type := S -> A * S.

Definition ret {S A : Type} (a : A) : State S A := fun s => (a, s).

Definition bind {S A B : Type} (m : State S A) (k : A -> State S B)
  : State S B :=
  fun s => let (a, s') := m s in k a s'.

Notation "'let*' x ':=' m 'in' k" := (bind m (fun x => k))
  (at level 10, x pattern, m at level 100, k at level 200).

(** The loop [for _, x := range xs { acc = body(acc, x) }]. *)
Fixpoint forEach {S A B : Type} (xs : list A) (body : B -> A -> State S B)
  (acc : B) : State S B :=
  match xs with
  | [] => ret acc
  | x :: xs' => let* acc' := body acc x in forEach xs' body acc'
  end.

(** The files the connection code reads and writes, by path. *)
Abbreviation FS := (gmap string string).

(** The operating system: which of the calls of package [os] (and the
    dial of the agent socket) fail, and what they return. A write that
    fails may have written the first [os_written] bytes of its text. *)
Record OS := {
  os_UserHomeDir : string + error;
  os_MkdirAll : string -> option error;
  os_Create : string -> option error;
  os_Chmod : string -> option error;
  os_OpenFile : string -> option error;
  os_WriteString : string -> string -> option error;
  os_written : string -> string -> nat;
  os_ReadFile : string -> string + error;
  os_Getenv : string -> string;
  net_Dial_unix : string -> option error
}.

(** The network and the remote host, as [ssh.Dial] and [sftp.NewClient]
    meet them: the host key presented at an address (or the failure to
    reach it), whether the host accepts one of the offered credentials, and
    whether the file-transfer channel opens. *)
Record Network := {
  net_hostKey : string -> (string * PublicKey) + error;
  net_auth : list AuthMethod -> option error;
  net_sftp : string -> option error
}.

(** ** remote/ssh_client.go: connecting *)

Section Connecting.
Context {std : GoStd} {xssh : GoSSH}.
Variable os : OS.
Variable net : Network.

(** An [ssh.HostKeyCallback]: host name, remote address and key. *)
Definition HostKeyCallback : Type :=
  string -> string -> PublicKey -> State FS (option error).

(** [ssh.InsecureIgnoreHostKey()] *)
Definition InsecureIgnoreHostKey : HostKeyCallback :=
  fun _ _ _ => ret None.

Definition NewSSHClient (config : SSHConfig.t) : SSHClient.t :=
  let config :=
    if SSHConfig.Port config =? 0 then
      SSHConfig.mk (SSHConfig.Host config) 22 (SSHConfig.Username config)
        (SSHConfig.Password config) (SSHConfig.KeyFile config)
        (SSHConfig.Timeout config) (SSHConfig.KnownHostsFile config)
        (SSHConfig.StrictHostCheck config)
    else config in
  let config :=
    if SSHConfig.Timeout config =? 0 then
      SSHConfig.mk (SSHConfig.Host config) (SSHConfig.Port config)
        (SSHConfig.Username config) (SSHConfig.Password config)
        (SSHConfig.KeyFile config) 30 (SSHConfig.KnownHostsFile config)
        (SSHConfig.StrictHostCheck config)
    else config in
  SSHClient.mk config None None false.

Definition createKnownHostsFile (filePath : string)
  : State FS (option error) :=
  match os_MkdirAll os (filepath_Dir filePath) with
  | Some err => ret (Some err)
  | None =>
      match os_Create os filePath with
      | Some err => ret (Some err)
      | None => fun fs => (os_Chmod os filePath, <[filePath := ""]> fs)
      end
  end.

(** The line that [addHostKey] writes, without its final newline. *)
Definition hostKeyEntry (hostname : string) (key : PublicKey) : string :=
  hostname +:+ " " +:+ Sprintf_ptr (keyType key) +:+ " "
    +:+ TrimSpace (authorizedKey key).

(** The file is opened for appending without [O_CREATE]: a missing file
    is an error. The byte count of [file.WriteString] is dropped: a write
    that fails leaves behind what it had written. *)
Definition addHostKey (knownHostsFile hostname : string) (key : PublicKey)
  : State FS (option error) :=
  fun fs =>
    match fs !! knownHostsFile with
    | None =>
        (Some (mkError ("open " +:+ knownHostsFile
                        +:+ ": no such file or directory") true), fs)
    | Some content =>
        match os_OpenFile os knownHostsFile with
        | Some err => (Some err, fs)
        | None =>
            let entry := hostKeyEntry hostname key in
            let line := entry +:+ String newline EmptyString in
            match os_WriteString os knownHostsFile line with
            | Some err =>
                let written :=
                  String.substring 0 (os_written os knownHostsFile line) line in
                (Some err, <[knownHostsFile := content +:+ written]> fs)
            | None => (None, <[knownHostsFile := content +:+ line]> fs)
            end
        end
    end.

(** The source spells the method [err.Errorf()]; it is read as
    [err.Error()]. *)
Definition wrapHostKeyCallback (callback : HostKeyCallback)
  (knownHostsFile : string) : HostKeyCallback :=
  fun hostname remote key =>
    let* err := callback hostname remote key in
    match err with
    | Some err =>
        if Contains (Error err) "no hostkey found" then
          let* addErr := addHostKey knownHostsFile hostname key in
          match addErr with
          | Some addErr => ret (Some (Errorf "Errorf: " addErr))
          | None => ret (Some err)
          end
        else ret None
    | None => ret None
    end.

(** [os.Stat] reports [os.IsNotExist] exactly for a path that is not in
    the file system; [knownhosts.New] reads the file as it is then. *)
Definition createHostKeyCallback (c : SSHClient.t)
  : State FS (HostKeyCallback + error) :=
  if negb (SSHConfig.StrictHostCheck (SSHClient.config c)) then
    ret (inl InsecureIgnoreHostKey)
  else
    let configured := SSHConfig.KnownHostsFile (SSHClient.config c) in
    match
      (if String.eqb configured "" then
         match os_UserHomeDir os with
         | inr err => inr (Errorf "Errorf: " err)
         | inl homeDir =>
             inl (filepath_Join (filepath_Join homeDir ".ssh")
                    "known_hosts")
         end
       else inl configured)
    with
    | inr err => ret (inr err)
    | inl knownHostsFile =>
        let* created :=
          (fun fs : FS =>
             match fs !! knownHostsFile with
             | None => createKnownHostsFile knownHostsFile fs
             | Some _ => (None, fs)
             end) in
        match created with
        | Some err => ret (inr (Errorf "Errorf: " err))
        | None =>
            fun fs =>
              match fs !! knownHostsFile with
              | None =>
                  (inr (Errorf "Errorf: "
                          (mkError ("open " +:+ knownHostsFile
                                    +:+ ": no such file or directory")
                             true)), fs)
              | Some content =>
                  match knownhosts_New content with
                  | inr err => (inr (Errorf "Errorf: " err), fs)
                  | inl check =>
                      (inl (wrapHostKeyCallback
                              (fun hostname remote key =>
                                 ret (check hostname remote key))
                              knownHostsFile), fs)
                  end
              end
        end
    end.

Definition loadPrivateKey (c : SSHClient.t) (keyPath : string)
  : Signer + error :=
  match os_ReadFile os keyPath with
  | inr err => inr err
  | inl key =>
      match ssh_ParsePrivateKey key with
      | inl signer => inl signer
      | inr err =>
          let password := SSHConfig.Password (SSHClient.config c) in
          if negb (String.eqb password "") then
            ssh_ParsePrivateKeyWithPassphrase key password
          else inr err
      end
  end.

Definition sshAgentAuth : AuthMethod + error :=
  let socket := os_Getenv os "SSH_AUTH_SOCK" in
  if String.eqb socket "" then inr (errorString "SSH_AUTH_SOCK env is null")
  else
    match net_Dial_unix os socket with
    | Some err => inr err
    | None => inl (PublicKeysCallback socket)
    end.

(** Returns the methods stored in [sshConfig.Auth], or the error. *)
Definition addAuthMethods (c : SSHClient.t) : list AuthMethod + error :=
  let config := SSHClient.config c in
  let authMethods : list AuthMethod := [] in
  let authMethods :=
    if negb (String.eqb (SSHConfig.Password config) "") then
      authMethods ++ [Password (SSHConfig.Password config)]
    else authMethods in
  match
    (if negb (String.eqb (SSHConfig.KeyFile config) "") then
       match loadPrivateKey c (SSHConfig.KeyFile config) with
       | inr err => inr (Errorf "Errorf; " err)
       | inl key => inl (authMethods ++ [PublicKeys key])
       end
     else inl authMethods)
  with
  | inr err => inr err
  | inl authMethods =>
      let authMethods :=
        match sshAgentAuth with
        | inl agentAuth => authMethods ++ [agentAuth]
        | inr _ => authMethods
        end in
      if len authMethods =? 0 then inr (errorString "null")
      else inl authMethods
  end.

(** [ssh.Dial("tcp", addr, config)] as its documentation describes it:
    the address is dialled, the host key that the server presents is
    handed to [config.HostKeyCallback] with the dialled address as host
    name, an error from the callback fails the handshake, and the
    credentials are offered afterwards. *)
Definition ssh_Dial (addr : string) (hostKeyCallback : HostKeyCallback)
  (auth : list AuthMethod) : State FS (option error) :=
  match net_hostKey net addr with
  | inr err => ret (Some err)
  | inl (remote, key) =>
      let* err := hostKeyCallback addr remote key in
      match err with
      | Some err => ret (Some (Errorf "ssh: handshake failed: " err))
      | None => ret (net_auth net auth)
      end
  end.

Definition setConnected (c : SSHClient.t) (ssh : option string)
  (sftp : option string) (connected : bool) : SSHClient.t :=
  SSHClient.mk (SSHClient.config c) ssh sftp connected.

Definition Connect (c : SSHClient.t) : State FS (option error * SSHClient.t) :=
  if SSHClient.connected c then ret (None, c)
  else
    let* hostKeyCallback := createHostKeyCallback c in
    match hostKeyCallback with
    | inr err => ret (Some (Errorf "Errorf: " err), c)
    | inl hostKeyCallback =>
        match addAuthMethods c with
        | inr err => ret (Some (Errorf "Errorf: " err), c)
        | inl auth =>
            let addr :=
              SSHConfig.Host (SSHClient.config c)
                +:+ itoa (SSHConfig.Port (SSHClient.config c)) in
            let* err := ssh_Dial addr hostKeyCallback auth in
            match err with
            | Some err => ret (Some (Errorf "ssh Errorf: " err), c)
            | None =>
                let c := setConnected c (Some addr) None false in
                match net_sftp net addr with
                | Some err => ret (Some (Errorf "Errorf: " err), c)
                | None => ret (None, setConnected c (Some addr) (Some addr) true)
                end
            end
        end
    end.

End Connecting.

(** ** remote/ssh_client.go: the connected client *)

(** What the engine does to the outside: calls of the transport client
    (recorded when the method is entered) and text written to the terminal
    (one event for each call of [fmt.Print*] and of the progress bar). *)
Inductive Event :=
| ExecEv (command : string)
| UploadEv (localPath remotePath : string)
| DownloadEv (remotePath localPath : string)
| StatEv (remotePath : string)
| PrintEv (text : string)
| BarStartEv (total : Z)
| BarIncrementEv
| BarFinishEv.

Abbreviation Trace := (list Event).

(** How a remote command ends: no session could be opened, the command
    failed (non-zero exit or a broken channel) after writing [output], or it
    succeeded. *)
Inductive ExecOutcome :=
| SessionFails (err : error)
| RunFails (output : string) (err : error)
| RunOk (output : string).

(** The remote host and the scanner process, as answers that may depend on
    everything done so far. For a transfer the answer is the error of the
    first step that fails (opening, creating directories, creating the
    target, copying), or [None]. *)
Record World := {
  w_exec : Trace -> string -> ExecOutcome;
  w_upload : Trace -> string -> string -> option error;
  w_download : Trace -> string -> string -> option error;
  w_stat : Trace -> string -> option error;
  w_scan : string -> string -> list FileMetadata.t + error;
  w_now : string -> Time;
  w_elapsed : Trace -> Z
}.

Definition emit (ev : Event) : State Trace unit := fun t => (tt, t ++ [ev]).

Definition when (b : bool) (m : State Trace unit) : State Trace unit :=
  if b then m else ret tt.

Section Transport.
Variable W : World.

Definition IsConnected (c : SSHClient.t) : bool := SSHClient.connected c.

Definition execResult (c : SSHClient.t) (t : Trace) (command : string)
  : string * option error :=
  if negb (SSHClient.connected c) then ("", Some (errorString "ssh is error"))
  else
    match w_exec W t command with
    | SessionFails err => ("", Some (Errorf "Errorf: " err))
    | RunFails output err => (output, Some (Errorf "Errorf: " err))
    | RunOk output => (output, None)
    end.

Definition ExecuteCommand (c : SSHClient.t) (command : string)
  : State Trace (string * option error) :=
  fun t => (execResult c t command, t ++ [ExecEv command]).

Definition uploadResult (c : SSHClient.t) (t : Trace)
  (localPath remotePath : string) : option error :=
  if negb (SSHClient.connected c) then Some (errorString "SSH is error")
  else
    match w_upload W t localPath remotePath with
    | Some err => Some (Errorf "Errorf: " err)
    | None => None
    end.

Definition UploadFile (c : SSHClient.t) (localPath remotePath : string)
  : State Trace (option error) :=
  fun t => (uploadResult c t localPath remotePath,
            t ++ [UploadEv localPath remotePath]).

Definition downloadResult (c : SSHClient.t) (t : Trace)
  (remotePath localPath : string) : option error :=
  if negb (SSHClient.connected c) then Some (errorString "ssh is null")
  else
    match w_download W t remotePath localPath with
    | Some err => Some (Errorf "Errorf: " err)
    | None => None
    end.

Definition DownloadFile (c : SSHClient.t) (remotePath localPath : string)
  : State Trace (option error) :=
  fun t => (downloadResult c t remotePath localPath,
            t ++ [DownloadEv remotePath localPath]).

Definition FIleExists (c : SSHClient.t) (remotePath : string)
  : State Trace (bool * option error) :=
  fun t =>
    (if negb (SSHClient.connected c) then
       (false, Some (errorString "ssh is null"))
     else
       match w_stat W t remotePath with
       | Some err => if IsNotExist err then (false, Some err) else (true, None)
       | None => (true, None)
       end,
     t ++ [StatEv remotePath]).

End Transport.

(** ** The synchronisation engine *)

Definition addError (msg : string) (r : SyncResult.t) : SyncResult.t :=
  SyncResult.mk (SyncResult.TotalFiles r) (SyncResult.UploadedFiles r)
    (SyncResult.DownloadFiles r) (SyncResult.DeletedFiles r)
    (SyncResult.SkippedFiles r) (incr (SyncResult.ErrorFiles r))
    (SyncResult.TotalSize r) (SyncResult.Duration r)
    (SyncResult.Errors r ++ [msg]).

Definition addUploaded (size : Z) (r : SyncResult.t) : SyncResult.t :=
  SyncResult.mk (SyncResult.TotalFiles r) (incr (SyncResult.UploadedFiles r))
    (SyncResult.DownloadFiles r) (SyncResult.DeletedFiles r)
    (SyncResult.SkippedFiles r) (SyncResult.ErrorFiles r)
    (wrap64 (SyncResult.TotalSize r + size)) (SyncResult.Duration r)
    (SyncResult.Errors r).

Definition addDownloaded (size : Z) (r : SyncResult.t) : SyncResult.t :=
  SyncResult.mk (SyncResult.TotalFiles r) (SyncResult.UploadedFiles r)
    (incr (SyncResult.DownloadFiles r)) (SyncResult.DeletedFiles r)
    (SyncResult.SkippedFiles r) (SyncResult.ErrorFiles r)
    (wrap64 (SyncResult.TotalSize r + size)) (SyncResult.Duration r)
    (SyncResult.Errors r).

Definition addDeleted (r : SyncResult.t) : SyncResult.t :=
  SyncResult.mk (SyncResult.TotalFiles r) (SyncResult.UploadedFiles r)
    (SyncResult.DownloadFiles r) (incr (SyncResult.DeletedFiles r))
    (SyncResult.SkippedFiles r) (SyncResult.ErrorFiles r)
    (SyncResult.TotalSize r) (SyncResult.Duration r) (SyncResult.Errors r).

Definition setTotalFiles (n : Z) (r : SyncResult.t) : SyncResult.t :=
  SyncResult.mk n (SyncResult.UploadedFiles r)
    (SyncResult.DownloadFiles r) (SyncResult.DeletedFiles r)
    (SyncResult.SkippedFiles r) (SyncResult.ErrorFiles r)
    (SyncResult.TotalSize r) (SyncResult.Duration r) (SyncResult.Errors r).

Definition setDuration (d : Z) (r : SyncResult.t) : SyncResult.t :=
  SyncResult.mk (SyncResult.TotalFiles r) (SyncResult.UploadedFiles r)
    (SyncResult.DownloadFiles r) (SyncResult.DeletedFiles r)
    (SyncResult.SkippedFiles r) (SyncResult.ErrorFiles r)
    (SyncResult.TotalSize r) d (SyncResult.Errors r).

Definition addUpload (item : SyncItem.t) (plan : SyncPlan.t) : SyncPlan.t :=
  SyncPlan.mk (SyncPlan.Upload plan ++ [item]) (SyncPlan.Download plan)
    (SyncPlan.Delete plan).

Definition addDownload (item : SyncItem.t) (plan : SyncPlan.t) : SyncPlan.t :=
  SyncPlan.mk (SyncPlan.Upload plan) (SyncPlan.Download plan ++ [item])
    (SyncPlan.Delete plan).

Definition addDelete (item : SyncItem.t) (plan : SyncPlan.t) : SyncPlan.t :=
  SyncPlan.mk (SyncPlan.Upload plan) (SyncPlan.Download plan)
    (SyncPlan.Delete plan ++ [item]).

Definition findCommand (remotePath : string) : string :=
  "find '" +:+ remotePath
    +:+ "' -type f -printf '%P\t%s\t%T@\n' 2>/dev/null || true".

Definition rmCommand (remotePath : string) : string :=
  "rm -f '" +:+ remotePath +:+ "'".

Definition mkdirCommand (remotePath : string) : string :=
  "mkdir -p '" +:+ remotePath +:+ "'".

Definition nl : string := String newline EmptyString.

Section Engine.
Context {std : GoStd}.
Variable W : World.

Fixpoint matchesAny (patterns : list string) (path : string) : bool :=
  match patterns with
  | [] => false
  | pattern :: rest =>
      if filepath_Match pattern (filepath_Base path) then true
      else if Contains path pattern then true
      else matchesAny rest path
  end.

Definition shouldExclude (rse : RemoteSyncEngine.t) (path : string) : bool :=
  matchesAny (RemoteConfig.ExcludeList (RemoteSyncEngine.config rse)) path.

(** The scanner is asked for [localPath] as both source and destination;
    a time stamp that does not parse becomes the current time. *)
Definition scanLocalFiles (rse : RemoteSyncEngine.t) (localPath : string)
  : gmap string FileInfo.t + error :=
  match w_scan W localPath localPath with
  | inr err => inr (Errorf "Python扫描失败: " err)
  | inl sourceFiles =>
      inl (fold_left
             (fun (files : gmap string FileInfo.t) pyFile =>
                match filepath_Rel localPath (FileMetadata.Path pyFile) with
                | None => files
                | Some relPath =>
                    if shouldExclude rse relPath then files
                    else
                      let modTime :=
                        match time_Parse (FileMetadata.ModifiedTime pyFile) with
                        | Some t => t
                        | None => w_now W (FileMetadata.Path pyFile)
                        end in
                      <[relPath :=
                          FileInfo.mk relPath (FileMetadata.Size pyFile)
                            modTime false (FileMetadata.Hash pyFile)]> files
                end)
             sourceFiles ∅)
  end.

(** The body of the loop over the lines of the listing. *)
Definition parseLine (rse : RemoteSyncEngine.t)
  (files : gmap string FileInfo.t) (line : string) : gmap string FileInfo.t :=
  if String.eqb line "" then files
  else
    match Split line tab with
    | [relPath; size; stamp] =>
        if shouldExclude rse relPath then files
        else
          <[relPath :=
              FileInfo.mk relPath (Sscanf_d size)
                (time_Unix (Sscanf_f stamp)) false ""]> files
    | _ => files
    end.

Definition scanRemoteFiles (rse : RemoteSyncEngine.t) (remotePath : string)
  : State Trace (gmap string FileInfo.t * option error) :=
  let files : gmap string FileInfo.t := ∅ in
  let command := findCommand remotePath in
  let* (output, err) :=
    ExecuteCommand W (RemoteSyncEngine.sshClient rse) command in
  match err with
  | Some _ => ret (files, None)
  | None =>
      let lines := Split (TrimSpace output) newline in
      ret (fold_left (parseLine rse) lines files, None)
  end.

Definition includesToRemote (d : SyncDirection) : bool :=
  (d =? SyncToRemote) || (d =? SyncBoth).

Definition includesFromRemote (d : SyncDirection) : bool :=
  (d =? SyncFromRemote) || (d =? SyncBoth).

(** [shouldUpload] at the end of one iteration of the first loop. *)
Definition shouldUpload (rse : RemoteSyncEngine.t)
  (remoteFiles : gmap string FileInfo.t) (relPath : string)
  (localFile : FileInfo.t) : bool :=
  match remoteFiles !! relPath with
  | None => true
  | Some remoteFile =>
      if RemoteConfig.Incremental (RemoteSyncEngine.config rse) then
        After (FileInfo.ModTime localFile) (FileInfo.ModTime remoteFile)
        || negb (FileInfo.Size localFile =? FileInfo.Size remoteFile)
      else SyncOptions.Force (RemoteSyncEngine.options rse)
  end.

(** [shouldDownload] at the end of one iteration of the second loop. *)
Definition shouldDownload (rse : RemoteSyncEngine.t)
  (localFiles : gmap string FileInfo.t) (relPath : string)
  (remoteFile : FileInfo.t) : bool :=
  match localFiles !! relPath with
  | None => true
  | Some localFile =>
      if RemoteConfig.Incremental (RemoteSyncEngine.config rse) then
        After (FileInfo.ModTime remoteFile) (FileInfo.ModTime localFile)
        || negb (FileInfo.Size remoteFile =? FileInfo.Size localFile)
      else SyncOptions.Force (RemoteSyncEngine.options rse)
  end.

Definition uploadItem (localBase remoteBase : string)
  (entry : string * FileInfo.t) : SyncItem.t :=
  SyncItem.mk (filepath_Join localBase entry.1)
    (filepath_Join remoteBase entry.1) (FileInfo.Size entry.2) "upload".

Definition downloadItem (localBase remoteBase : string)
  (entry : string * FileInfo.t) : SyncItem.t :=
  SyncItem.mk (filepath_Join localBase entry.1)
    (filepath_Join remoteBase entry.1) (FileInfo.Size entry.2) "download".

Definition deleteItem (remoteBase : string)
  (entry : string * FileInfo.t) : SyncItem.t :=
  SyncItem.mk "" (filepath_Join remoteBase entry.1)
    (FileInfo.Size entry.2) "delete_remote".

Definition calculateSyncPlan (rse : RemoteSyncEngine.t)
  (localFiles remoteFiles : gmap string FileInfo.t)
  (localBase remoteBase : string) : SyncPlan.t :=
  let options := RemoteSyncEngine.options rse in
  let plan := SyncPlan.mk [] [] [] in
  let plan :=
    if includesToRemote (SyncOptions.Direction options) then
      fold_left
        (fun plan entry =>
           if FileInfo.IsDir entry.2 then plan
           else if shouldUpload rse remoteFiles entry.1 entry.2 then
             addUpload (uploadItem localBase remoteBase entry) plan
           else plan)
        (map_to_list localFiles) plan
    else plan in
  let plan :=
    if includesFromRemote (SyncOptions.Direction options) then
      fold_left
        (fun plan entry =>
           if shouldDownload rse localFiles entry.1 entry.2 then
             addDownload (downloadItem localBase remoteBase entry) plan
           else plan)
        (map_to_list remoteFiles) plan
    else plan in
  let plan :=
    if SyncOptions.DeleteExtra options then
      if includesToRemote (SyncOptions.Direction options) then
        fold_left
          (fun plan entry =>
             match localFiles !! entry.1 with
             | None => addDelete (deleteItem remoteBase entry) plan
             | Some _ => plan
             end)
          (map_to_list remoteFiles) plan
      else plan
    else plan in
  plan.

Definition uploadFailed (item : SyncItem.t) (err : error) : string :=
  "上传失败 " +:+ SyncItem.LocalPath item +:+ ": " +:+ Error err.

Definition downloadFailed (item : SyncItem.t) (err : error) : string :=
  "下载失败 " +:+ SyncItem.RemotePath item +:+ ": " +:+ Error err.

Definition deleteFailed (item : SyncItem.t) (err : error) : string :=
  "删除失败 " +:+ SyncItem.RemotePath item +:+ ": " +:+ Error err.

(** One iteration of each of the three loops of [executeSyncPlan]. *)
Definition uploadOne (rse : RemoteSyncEngine.t) (bar : bool)
  (result : SyncResult.t) (item : SyncItem.t) : State Trace SyncResult.t :=
  let* _ := when bar (emit BarIncrementEv) in
  let* _ :=
    when (SyncOptions.Verbose (RemoteSyncEngine.options rse))
      (emit (PrintEv ("上传: " +:+ SyncItem.LocalPath item +:+ " -> "
                      +:+ SyncItem.RemotePath item +:+ nl))) in
  let* err :=
    UploadFile W (RemoteSyncEngine.sshClient rse)
      (SyncItem.LocalPath item) (SyncItem.RemotePath item) in
  match err with
  | Some err => ret (addError (uploadFailed item err) result)
  | None => ret (addUploaded (SyncItem.Size item) result)
  end.

Definition downloadOne (rse : RemoteSyncEngine.t) (bar : bool)
  (result : SyncResult.t) (item : SyncItem.t) : State Trace SyncResult.t :=
  let* _ := when bar (emit BarIncrementEv) in
  let* _ :=
    when (SyncOptions.Verbose (RemoteSyncEngine.options rse))
      (emit (PrintEv ("下载: " +:+ SyncItem.RemotePath item +:+ " -> "
                      +:+ SyncItem.LocalPath item +:+ nl))) in
  let* err :=
    DownloadFile W (RemoteSyncEngine.sshClient rse)
      (SyncItem.RemotePath item) (SyncItem.LocalPath item) in
  match err with
  | Some err => ret (addError (downloadFailed item err) result)
  | None => ret (addDownloaded (SyncItem.Size item) result)
  end.

Definition deleteOne (rse : RemoteSyncEngine.t) (bar : bool)
  (result : SyncResult.t) (item : SyncItem.t) : State Trace SyncResult.t :=
  let* _ := when bar (emit BarIncrementEv) in
  let* _ :=
    when (SyncOptions.Verbose (RemoteSyncEngine.options rse))
      (emit (PrintEv ("删除: " +:+ SyncItem.RemotePath item +:+ nl))) in
  let command := rmCommand (SyncItem.RemotePath item) in
  let* (_, err) :=
    ExecuteCommand W (RemoteSyncEngine.sshClient rse) command in
  match err with
  | Some err => ret (addError (deleteFailed item err) result)
  | None => ret (addDeleted result)
  end.

(** [result] is the accumulator that the Go code updates through its
    pointer; the deferred [bar.Finish()] runs last. *)
Definition executeSyncPlan (rse : RemoteSyncEngine.t) (plan : SyncPlan.t)
  (result : SyncResult.t) : State Trace (SyncResult.t * option error) :=
  let totalItems :=
    len (SyncPlan.Upload plan) + len (SyncPlan.Download plan)
    + len (SyncPlan.Delete plan) in
  let bar :=
    SyncOptions.Progress (RemoteSyncEngine.options rse) && (0 <? totalItems) in
  let* _ := when bar (emit (BarStartEv totalItems)) in
  let* result := forEach (SyncPlan.Upload plan) (uploadOne rse bar) result in
  let* result := forEach (SyncPlan.Download plan) (downloadOne rse bar) result in
  let* result := forEach (SyncPlan.Delete plan) (deleteOne rse bar) result in
  let* _ := when bar (emit BarFinishEv) in
  ret (result, None).

Definition counts (plan : SyncPlan.t) : string :=
  "上传 " +:+ itoa (len (SyncPlan.Upload plan)) +:+ ", 下载 "
    +:+ itoa (len (SyncPlan.Download plan)) +:+ ", 删除 "
    +:+ itoa (len (SyncPlan.Delete plan)) +:+ nl.

Definition printLine {A : Type} (line : A -> string) (_ : unit) (item : A)
  : State Trace unit :=
  emit (PrintEv (line item)).

Definition printSyncPlan (plan : SyncPlan.t) : State Trace unit :=
  let* _ := emit (PrintEv ("=== 同步计划 (试运行) ===" +:+ nl)) in
  let* _ :=
    if 0 <? len (SyncPlan.Upload plan) then
      let* _ := emit (PrintEv (nl +:+ "需要上传的文件:" +:+ nl)) in
      forEach (SyncPlan.Upload plan)
        (printLine (fun item =>
           "  上传: " +:+ SyncItem.LocalPath item +:+ " -> "
             +:+ SyncItem.RemotePath item +:+ " ("
             +:+ itoa (SyncItem.Size item) +:+ " bytes)" +:+ nl)) tt
    else ret tt in
  let* _ :=
    if 0 <? len (SyncPlan.Download plan) then
      let* _ := emit (PrintEv (nl +:+ "需要下载的文件:" +:+ nl)) in
      forEach (SyncPlan.Download plan)
        (printLine (fun item =>
           "  下载: " +:+ SyncItem.RemotePath item +:+ " -> "
             +:+ SyncItem.LocalPath item +:+ " ("
             +:+ itoa (SyncItem.Size item) +:+ " bytes)" +:+ nl)) tt
    else ret tt in
  let* _ :=
    if 0 <? len (SyncPlan.Delete plan) then
      let* _ := emit (PrintEv (nl +:+ "需要删除的文件:" +:+ nl)) in
      forEach (SyncPlan.Delete plan)
        (printLine (fun item =>
           "  删除: " +:+ SyncItem.RemotePath item +:+ nl)) tt
    else ret tt in
  emit (PrintEv (nl +:+ "总计: " +:+ counts plan)).

Definition ensureRemoteDirectory (rse : RemoteSyncEngine.t)
  (remotePath : string) : State Trace (option error) :=
  let command := mkdirCommand remotePath in
  let* (_, err) :=
    ExecuteCommand W (RemoteSyncEngine.sshClient rse) command in
  ret err.

(** The remote path that [SyncDirectory] works on. *)
Definition absoluteRemote (rse : RemoteSyncEngine.t) (remotePath : string)
  : string :=
  if negb (filepath_IsAbs remotePath) then
    filepath_Join (RemoteConfig.RemoteBase (RemoteSyncEngine.config rse))
      remotePath
  else remotePath.

(** The first component is the [*SyncResult] returned, [None] for [nil];
    [Duration] is read from the clock when the run returns. *)
Definition SyncDirectory (rse : RemoteSyncEngine.t)
  (localPath remotePath : string)
  : State Trace (option SyncResult.t * option error) :=
  let result := SyncResult.mk 0 0 0 0 0 0 0 0 [] in
  if negb (IsConnected (RemoteSyncEngine.sshClient rse)) then
    ret (None, Some (errorString "SSH未连接"))
  else
    let remotePath := absoluteRemote rse remotePath in
    let* err := ensureRemoteDirectory rse remotePath in
    match err with
    | Some err => ret (None, Some (Errorf "创建远程目录失败: " err))
    | None =>
        match scanLocalFiles rse localPath with
        | inr err => ret (None, Some (Errorf "扫描本地文件失败: " err))
        | inl localFiles =>
            let* (remoteFiles, err) := scanRemoteFiles rse remotePath in
            match err with
            | Some err => ret (None, Some (Errorf "扫描远程文件失败: " err))
            | None =>
                let syncPlan :=
                  calculateSyncPlan rse localFiles remoteFiles
                    localPath remotePath in
                let result :=
                  setTotalFiles
                    (len (SyncPlan.Upload syncPlan)
                     + len (SyncPlan.Download syncPlan)
                     + len (SyncPlan.Delete syncPlan)) result in
                let* _ :=
                  when (SyncOptions.Verbose (RemoteSyncEngine.options rse))
                    (emit (PrintEv ("同步计划: " +:+ counts syncPlan))) in
                if SyncOptions.DryRun (RemoteSyncEngine.options rse) then
                  let* _ := printSyncPlan syncPlan in
                  fun t =>
                    ((Some (setDuration (w_elapsed W t) result), None), t)
                else
                  let* (result, err) :=
                    executeSyncPlan rse syncPlan result in
                  match err with
                  | Some err => ret (Some result, Some err)
                  | None =>
                      fun t =>
                        ((Some (setDuration (w_elapsed W t) result), None), t)
                  end
            end
        end
    end.

End Engine.

(** ** remote/ssh_client.go: closing *)

(** Whether closing the file-transfer channel and closing the session
    fail. *)
Record Closing := {
  close_sftp : option error;
  close_ssh : option error
}.

(** The handles stay in the client after they are closed; the error of the
    session, when there is one, replaces that of the channel. *)
Definition Close (k : Closing) (c : SSHClient.t) : option error * SSHClient.t :=
  if negb (SSHClient.connected c) then (None, c)
  else
    let err : option error := None in
    let err :=
      match SSHClient.sftpClient c with
      | Some _ =>
          match close_sftp k with
          | Some sftpErr => Some sftpErr
          | None => err
          end
      | None => err
      end in
    let err :=
      match SSHClient.sshClient c with
      | Some _ =>
          match close_ssh k with
          | Some sshErr => Some sshErr
          | None => err
          end
      | None => err
      end in
    (err, SSHClient.mk (SSHClient.config c) (SSHClient.sshClient c)
            (SSHClient.sftpClient c) false).

(** ** Vocabulary of the statements *)

Section Vocabulary.
Context {std : GoStd}.

(** The local records for which the first loop of [calculateSyncPlan]
    appends an upload, in the order of the loop. *)
Definition queuedUploads (rse : RemoteSyncEngine.t)
  (localFiles remoteFiles : gmap string FileInfo.t)
  : list (string * FileInfo.t) :=
  if includesToRemote
       (SyncOptions.Direction (RemoteSyncEngine.options rse)) then
    List.filter
      (fun entry =>
         negb (FileInfo.IsDir entry.2)
         && shouldUpload rse remoteFiles entry.1 entry.2)
      (map_to_list localFiles)
  else [].

(** The remote records for which the second loop appends a download. *)
Definition queuedDownloads (rse : RemoteSyncEngine.t)
  (localFiles remoteFiles : gmap string FileInfo.t)
  : list (string * FileInfo.t) :=
  if includesFromRemote
       (SyncOptions.Direction (RemoteSyncEngine.options rse)) then
    List.filter
      (fun entry => shouldDownload rse localFiles entry.1 entry.2)
      (map_to_list remoteFiles)
  else [].

(** The remote records for which the third loop appends a deletion. *)
Definition queuedDeletes (rse : RemoteSyncEngine.t)
  (localFiles remoteFiles : gmap string FileInfo.t)
  : list (string * FileInfo.t) :=
  if SyncOptions.DeleteExtra (RemoteSyncEngine.options rse)
     && includesToRemote
          (SyncOptions.Direction (RemoteSyncEngine.options rse)) then
    List.filter
      (fun entry => bool_decide (localFiles !! entry.1 = None))
      (map_to_list remoteFiles)
  else [].

(** Two inventories with identical contents: the same relative paths,
    each with equal size and equal modification time. *)
Definition identicalInventories
  (localFiles remoteFiles : gmap string FileInfo.t) : Prop :=
  forall relPath : string,
    match localFiles !! relPath, remoteFiles !! relPath with
    | Some localFile, Some remoteFile =>
        FileInfo.Size localFile = FileInfo.Size remoteFile
        /\ FileInfo.ModTime localFile = FileInfo.ModTime remoteFile
    | None, None => True
    | _, _ => False
    end.

(** The condition under which incremental mode uploads a local record. *)
Definition needsUpload (remoteFiles : gmap string FileInfo.t)
  (relPath : string) (localFile : FileInfo.t) : Prop :=
  remoteFiles !! relPath = None
  \/ exists remoteFile,
       remoteFiles !! relPath = Some remoteFile
       /\ (FileInfo.ModTime remoteFile < FileInfo.ModTime localFile
           \/ FileInfo.Size localFile <> FileInfo.Size remoteFile).

End Vocabulary.

(** The inventory that [scanRemoteFiles] makes of the outcome of the
    listing command. *)
Definition listedFiles {std : GoStd} (rse : RemoteSyncEngine.t)
  (listing : string * option error) : gmap string FileInfo.t :=
  match listing.2 with
  | Some _ => ∅
  | None => fold_left (parseLine rse) (Split (TrimSpace listing.1) newline) ∅
  end.

Definition failed (err : option error) : bool :=
  match err with
  | Some _ => true
  | None => false
  end.

(** The calls of the transport client among the events. *)
Definition isTransportCall (ev : Event) : bool :=
  match ev with
  | ExecEv _ | UploadEv _ _ | DownloadEv _ _ | StatEv _ => true
  | _ => false
  end.

Definition transportCalls (evs : Trace) : Trace :=
  List.filter isTransportCall evs.

Definition uploadCall (item : SyncItem.t) : Event :=
  UploadEv (SyncItem.LocalPath item) (SyncItem.RemotePath item).

Definition downloadCall (item : SyncItem.t) : Event :=
  DownloadEv (SyncItem.RemotePath item) (SyncItem.LocalPath item).

Definition deleteCall (item : SyncItem.t) : Event :=
  ExecEv (rmCommand (SyncItem.RemotePath item)).

Section Failures.
Variable W : World.
Variable c : SSHClient.t.

(** Whether the call behind an event, made after the events [t], returns
    an error. *)
Definition callFails (t : Trace) (ev : Event) : bool :=
  match ev with
  | ExecEv command => failed (execResult W c t command).2
  | UploadEv localPath remotePath =>
      failed (uploadResult W c t localPath remotePath)
  | DownloadEv remotePath localPath =>
      failed (downloadResult W c t remotePath localPath)
  | _ => false
  end.

(** The number of failing calls among the events [evs] that follow [t]. *)
Fixpoint failedCalls (t : Trace) (evs : Trace) : nat :=
  match evs with
  | [] => 0%nat
  | ev :: evs' =>
      ((if callFails t ev then 1 else 0) + failedCalls (t ++ [ev]) evs')%nat
  end.

(** The error bookkeeping over the events [evs] that follow [t]: one
    increment of [ErrorFiles] and one message for each failing call, and
    no change of [SkippedFiles]. *)
Definition accounted (t : Trace) (result : SyncResult.t) (evs : Trace)
  (result' : SyncResult.t) : Prop :=
  SyncResult.ErrorFiles result'
  = Nat.iter (failedCalls t evs) incr (SyncResult.ErrorFiles result)
  /\ (exists msgs,
         SyncResult.Errors result' = SyncResult.Errors result ++ msgs
         /\ length msgs = failedCalls t evs)
  /\ SyncResult.SkippedFiles result' = SyncResult.SkippedFiles result.

(** What one iteration of a loop of the executor does: it extends the
    trace by events holding exactly one call of the transport client, and
    keeps the books. *)
Definition iterates
  (one : SyncResult.t -> SyncItem.t -> State Trace SyncResult.t)
  (call : SyncItem.t -> Event) : Prop :=
  forall result item t,
  exists evs,
    (one result item t).2 = t ++ evs
    /\ transportCalls evs = [call item]
    /\ accounted t result evs (one result item t).1.

End Failures.

(** ** Further vocabulary *)

(** The engine with another value of the dry-run option. *)
Definition withDryRun (dryRun : bool) (rse : RemoteSyncEngine.t)
  : RemoteSyncEngine.t :=
  let options := RemoteSyncEngine.options rse in
  RemoteSyncEngine.mk (RemoteSyncEngine.config rse)
    (RemoteSyncEngine.sshClient rse)
    (SyncOptions.mk (SyncOptions.Direction options) dryRun
       (SyncOptions.Force options) (SyncOptions.Verbose options)
       (SyncOptions.Progress options) (SyncOptions.DeleteExtra options)).

(** A string without the byte [sep]. *)
Fixpoint lacks (sep : ascii) (s : string) : bool :=
  match s with
  | EmptyString => true
  | String c s' => negb (Ascii.eqb c sep) && lacks sep s'
  end.

(** One line of the remote listing. *)
Definition listingLine (relPath size stamp : string) : string :=
  relPath +:+ String tab (size +:+ String tab stamp).

(** The number of occurrences of the byte [sep]. *)
Fixpoint occurrences (sep : ascii) (s : string) : nat :=
  match s with
  | EmptyString => 0%nat
  | String c s' =>
      ((if Ascii.eqb c sep then 1 else 0) + occurrences sep s')%nat
  end.

(** What every record of an inventory satisfies: it sits under its own
    path, is not a directory, and its path passes the exclude list. *)
Definition wellKeyed {std : GoStd} (rse : RemoteSyncEngine.t)
  (files : gmap string FileInfo.t) : Prop :=
  forall relPath file,
    files !! relPath = Some file ->
    FileInfo.Path file = relPath
    /\ FileInfo.IsDir file = false
    /\ shouldExclude rse relPath = false.

(** The counters of [result'] are those of [result] after [n] items, each
    of which has incremented exactly one of the four counters; every error
    has added one message, and [TotalFiles] is untouched. *)
Definition tallied (n : nat) (result result' : SyncResult.t) : Prop :=
  exists u d x e : nat,
    (u + d + x + e = n)%nat
    /\ SyncResult.UploadedFiles result'
       = Nat.iter u incr (SyncResult.UploadedFiles result)
    /\ SyncResult.DownloadFiles result'
       = Nat.iter d incr (SyncResult.DownloadFiles result)
    /\ SyncResult.DeletedFiles result'
       = Nat.iter x incr (SyncResult.DeletedFiles result)
    /\ SyncResult.ErrorFiles result'
       = Nat.iter e incr (SyncResult.ErrorFiles result)
    /\ length (SyncResult.Errors result')
       = (length (SyncResult.Errors result) + e)%nat
    /\ SyncResult.TotalFiles result' = SyncResult.TotalFiles result.

(** The number of items of the plan that a run computes, once the remote
    directory exists and the local scan has succeeded. *)
Definition plannedTotal {std : GoStd} (W : World) (rse : RemoteSyncEngine.t)
  (localFiles : gmap string FileInfo.t) (localPath remotePath : string)
  (t : Trace) : Z :=
  let remote := absoluteRemote rse remotePath in
  let remoteFiles :=
    listedFiles rse
      (execResult W (RemoteSyncEngine.sshClient rse)
         (t ++ [ExecEv (mkdirCommand remote)]) (findCommand remote)) in
  let plan := calculateSyncPlan rse localFiles remoteFiles localPath remote in
  len (SyncPlan.Upload plan) + len (SyncPlan.Download plan)
  + len (SyncPlan.Delete plan).

(** ** Stubs *)

(** A library instance for running the code on examples: paths are joined
    with a slash and nothing is cleaned, patterns match literally, numbers
    are read as decimal integers and time stamps are not parsed. *)
Definition stubStd : GoStd := {|
  filepath_Join := fun a b => a +:+ "/" +:+ b;
  filepath_IsAbs := fun p => String.prefix "/" p;
  filepath_Base := fun p => p;
  filepath_Dir := fun p => p;
  filepath_Match := fun pattern name => String.eqb pattern name;
  filepath_Rel := fun _ target => Some target;
  time_Parse := fun _ => None;
  Sscanf_d := fun s =>
    match NilZero.int_of_string s with
    | Some n => Z.of_int n
    | None => 0
    end;
  Sscanf_f := fun s =>
    match NilZero.int_of_string s with
    | Some n => Z.of_int n
    | None => 0
    end;
  Sprintf_ptr := fun _ => "%!s(*string=0xc000012345)"
|}.

Definition stubSSHConfig : SSHConfig.t :=
  SSHConfig.mk "example.com" 22 "alice" "secret" "" 30 "/kh" true.

(** A client that [Connect] has connected. *)
Definition stubClient : SSHClient.t :=
  SSHClient.mk stubSSHConfig (Some "example.com22") (Some "example.com22") true.

Definition stubEngine (incremental : bool) (direction : SyncDirection)
  (dryRun force deleteExtra : bool) : RemoteSyncEngine.t :=
  RemoteSyncEngine.mk
    (RemoteConfig.mk "demo" stubSSHConfig "/srv" false false incremental
       "" false [])
    stubClient
    (SyncOptions.mk direction dryRun force false false deleteExtra).

Definition regular (path : string) (size : Z) (modTime : Z) : FileInfo.t :=
  FileInfo.mk path size modTime false "".

(** One file, the same on both sides. *)
Definition sameInventory : gmap string FileInfo.t :=
  {[ "a.txt" := regular "a.txt" 10 100 ]}.

(** A local inventory holding a record that is marked as a directory. *)
Definition dirInventory : gmap string FileInfo.t :=
  {[ "docs" := FileInfo.mk "docs" 4096 100 true "" ]}.

(** [a.txt] differs in size only; [c.txt] exists on the remote side only. *)
Definition localTree : gmap string FileInfo.t :=
  {[ "a.txt" := regular "a.txt" 1 100 ]}.

Definition remoteTree : gmap string FileInfo.t :=
  <[ "a.txt" := regular "a.txt" 2 100 ]> {[ "c.txt" := regular "c.txt" 5 100 ]}.

(** The listing of a remote tree that holds [c.txt] only. *)
Definition stubListing : string :=
  "c.txt" +:+ String tab ("5" +:+ String tab ("100" +:+ nl)).

(** A remote host on which every deletion fails and the upload of [b.txt]
    fails; the local tree holds [a.txt] and [b.txt]. *)
Definition stubWorld : World := {|
  w_exec := fun _ command =>
    if String.prefix "find" command then RunOk stubListing
    else if String.prefix "rm" command then
      RunFails "" (errorString "Process exited with status 1")
    else RunOk "";
  w_upload := fun _ localPath _ =>
    if String.eqb localPath "/home/u/b.txt" then
      Some (errorString "permission denied")
    else None;
  w_download := fun _ _ _ => None;
  w_stat := fun _ remotePath =>
    if String.eqb remotePath "/srv/data/a.txt" then None
    else if String.eqb remotePath "/srv/data/locked" then
      Some (mkError "permission denied" false)
    else Some (mkError "file does not exist" true);
  w_scan := fun _ _ =>
    inl [FileMetadata.mk "a.txt" 10 "2024-01-01T00:00:00Z" "h1";
         FileMetadata.mk "b.txt" 20 "2024-01-01T00:00:00Z" "h2"];
  w_now := fun _ => 1700000000000000000;
  w_elapsed := fun _ => 1000
|}.

(** A remote host on which the listing command fails. *)
Definition missingWorld : World := {|
  w_exec := fun _ command =>
    if String.prefix "find" command then
      RunFails "" (errorString "Process exited with status 1")
    else RunOk "";
  w_upload := fun _ _ _ => None;
  w_download := fun _ _ _ => None;
  w_stat := fun _ _ => Some (mkError "file does not exist" true);
  w_scan := fun _ _ => inl [];
  w_now := fun _ => 0;
  w_elapsed := fun _ => 0
|}.

(** A known-hosts check for running the connection code on examples: one
    entry on each line, the host name, a space and the authorized-key line
    of the key. A listed key is accepted, another key for a listed host is
    a mismatch, and a host that is not listed is refused with the text
    [unknown]. *)
Definition stubCheck (unknown : string) (content : string) : KnownHostsCheck :=
  fun hostname _ key =>
    let lines := Split content newline in
    if existsb
         (String.eqb (hostname +:+ " " +:+ TrimSpace (authorizedKey key)))
         lines
    then None
    else if existsb (String.prefix (hostname +:+ " ")) lines then
      Some (errorString "knownhosts: key mismatch")
    else Some (errorString unknown).

Definition stubSSH (unknown : string) : GoSSH := {|
  ssh_ParsePrivateKey := fun pem => inl (mkSigner pem);
  ssh_ParsePrivateKeyWithPassphrase := fun pem _ => inl (mkSigner pem);
  knownhosts_New := fun content => inl (stubCheck unknown content)
|}.

(** An operating system on which every call succeeds and no agent runs. *)
Definition stubOS : OS := {|
  os_UserHomeDir := inl "/home/alice";
  os_MkdirAll := fun _ => None;
  os_Create := fun _ => None;
  os_Chmod := fun _ => None;
  os_OpenFile := fun _ => None;
  os_WriteString := fun _ _ => None;
  os_written := fun _ _ => 0%nat;
  os_ReadFile := fun _ => inl "";
  os_Getenv := fun _ => "";
  net_Dial_unix := fun _ => None
|}.

Definition keyA : PublicKey :=
  mkPublicKey "ssh-ed25519" ("ssh-ed25519 AAAAC3A" +:+ nl).

Definition keyB : PublicKey :=
  mkPublicKey "ssh-ed25519" ("ssh-ed25519 AAAAC3B" +:+ nl).

(** A network on which the dialled address reaches a host that presents
    [key] and accepts the credentials. *)
Definition stubNet (key : PublicKey) : Network := {|
  net_hostKey := fun addr => inl ("203.0.113.7:22", key);
  net_auth := fun _ => None;
  net_sftp := fun _ => None
|}.

(** A known-hosts file that lists [keyA] for the dialled address. *)
Definition pinnedFS : FS :=
  {[ "/kh" := "example.com22 ssh-ed25519 AAAAC3A" +:+ nl ]}.

(** An empty known-hosts file. *)
Definition emptyFS : FS := {[ "/kh" := "" ]}.

(** A client that has not connected yet. *)
Definition freshClient : SSHClient.t := SSHClient.mk stubSSHConfig None None false.

(** A local tree of two files of which the remote tree holds the first,
    older and of the same size. *)
Definition twoFiles : gmap string FileInfo.t :=
  <[ "a.txt" := regular "a.txt" 10 200 ]> {[ "b.txt" := regular "b.txt" 20 100 ]}.

Definition oneFile : gmap string FileInfo.t :=
  {[ "a.txt" := regular "a.txt" 10 100 ]}.

(** An engine whose exclude list holds the empty pattern. *)
Definition excludeAllEngine : RemoteSyncEngine.t :=
  RemoteSyncEngine.mk
    (RemoteConfig.mk "demo" stubSSHConfig "/srv" false false true "" false
       [".git"; ""])
    stubClient
    (SyncOptions.mk SyncBoth false false false false false).

(** An engine whose client has not connected. *)
Definition offlineEngine : RemoteSyncEngine.t :=
  RemoteSyncEngine.mk
    (RemoteConfig.mk "demo" stubSSHConfig "/srv" false false true "" false [])
    freshClient
    (SyncOptions.mk SyncBoth false false false false false).

(** A client without strict host checking. *)
Definition laxClient : SSHClient.t :=
  SSHClient.mk (SSHConfig.mk "example.com" 22 "alice" "secret" "" 30 "" false)
    None None false.

(** A client without a password and without a key file. *)
Definition anonymousClient : SSHClient.t :=
  SSHClient.mk (SSHConfig.mk "example.com" 22 "alice" "" "" 30 "/kh" true)
    None None false.

(** A client with a password and a key file. *)
Definition keyClient : SSHClient.t :=
  SSHClient.mk
    (SSHConfig.mk "example.com" 22 "alice" "secret" "/id_ed25519" 30 "/kh" true)
    None None false.

(** An operating system on which permissions cannot be set and key files
    cannot be read. *)
Definition restrictedOS : OS := {|
  os_UserHomeDir := inl "/home/alice";
  os_MkdirAll := fun _ => None;
  os_Create := fun _ => None;
  os_Chmod := fun _ => Some (errorString "operation not permitted");
  os_OpenFile := fun _ => None;
  os_WriteString := fun _ _ => None;
  os_written := fun _ _ => 0%nat;
  os_ReadFile := fun _ => inr (errorString "permission denied");
  os_Getenv := fun _ => "/run/agent.sock";
  net_Dial_unix := fun _ => None
|}.

(** A library for which every key is encrypted: it parses with a
    passphrase only. *)
Definition encryptedSSH : GoSSH := {|
  ssh_ParsePrivateKey := fun _ =>
    inr (errorString "ssh: this private key is passphrase protected");
  ssh_ParsePrivateKeyWithPassphrase := fun pem passphrase =>
    inl (mkSigner (pem +:+ passphrase));
  knownhosts_New := fun content =>
    inl (stubCheck "knownhosts: key is unknown" content)
|}.

(** Closing fails on both handles. *)
Definition failingClose : Closing := {|
  close_sftp := Some (errorString "sftp: connection lost");
  close_ssh := Some (errorString "ssh: connection lost")
|}.

(** A network on which the address [example.com:22] reaches a host that
    presents [key] and accepts the credentials; no other address can be
    dialled. *)
Definition dialNet (key : PublicKey) : Network := {|
  net_hostKey := fun addr =>
    if String.eqb addr "example.com:22" then inl ("203.0.113.7:22", key)
    else inr (errorString ("dial tcp: address " +:+ addr
                           +:+ ": missing port in address"));
  net_auth := fun _ => None;
  net_sftp := fun _ => None
|}.

(** A client whose host name ends in a colon: the address that [Connect]
    dials, the host name followed by the port, is [example.com:22]. *)
Definition colonClient : SSHClient.t :=
  SSHClient.mk
    (SSHConfig.mk "example.com:" 22 "alice" "secret" "" 30 "/kh" true)
    None None false.

(** A known-hosts file that lists [keyA] for [example.com:22]. *)
Definition pinnedColonFS : FS :=
  {[ "/kh" := "example.com:22 ssh-ed25519 AAAAC3A" +:+ nl ]}.

(** An operating system on which the disk fills up after seven bytes of a
    write. *)
Definition fullDiskOS : OS := {|
  os_UserHomeDir := inl "/home/alice";
  os_MkdirAll := fun _ => None;
  os_Create := fun _ => None;
  os_Chmod := fun _ => None;
  os_OpenFile := fun _ => None;
  os_WriteString := fun _ _ => Some (errorString "no space left on device");
  os_written := fun _ _ => 7%nat;
  os_ReadFile := fun _ => inl "";
  os_Getenv := fun _ => "";
  net_Dial_unix := fun _ => None
|}.

(** The same host name without strict host checking. *)
Definition laxColonClient : SSHClient.t :=
  SSHClient.mk
    (SSHConfig.mk "example.com:" 22 "alice" "secret" "" 30 "" false)
    None None false.

(** * Properties *)

(** ** Host keys *)

Section HostKeyFacts.
Context {std : GoStd} {xssh : GoSSH}.
Variable os : OS.
Variable net : Network.

(** With strict checking and a known-hosts file that exists and parses,
    the callback is the wrapped check of that file, and nothing is
    written. *)
Lemma createHostKeyCallback_strict (c : SSHClient.t) (fs : FS)
  (knownHostsFile content : string) (check : KnownHostsCheck) :
  SSHConfig.StrictHostCheck (SSHClient.config c) = true ->
  SSHConfig.KnownHostsFile (SSHClient.config c) = knownHostsFile ->
  knownHostsFile <> "" ->
  fs !! knownHostsFile = Some content ->
  knownhosts_New content = inl check ->
  createHostKeyCallback os c fs
  = (inl (wrapHostKeyCallback os
            (fun hostname remote key => ret (check hostname remote key))
            knownHostsFile), fs).
Proof.
  intros Hstrict Hfile Hne Hfs Hnew. unfold createHostKeyCallback.
  rewrite Hstrict, Hfile. simpl.
  apply String.eqb_neq in Hne. rewrite Hne.
  unfold bind. rewrite Hfs. unfold ret. by rewrite Hfs, Hnew.
Qed.

(** What the wrapped callback does with an error of the check that does
    not hold the text it looks for: it accepts the key. *)
Lemma wrapHostKeyCallback_other_error (check : KnownHostsCheck)
  (knownHostsFile hostname remote : string) (key : PublicKey)
  (err : error) (fs : FS) :
  check hostname remote key = Some err ->
  Contains (Error err) "no hostkey found" = false ->
  wrapHostKeyCallback os (fun h r k => ret (check h r k)) knownHostsFile
    hostname remote key fs
  = (None, fs).
Proof.
  intros Hcheck Htext. unfold wrapHostKeyCallback, bind, ret.
  by rewrite Hcheck, Htext.
Qed.

(** What it does with an error that holds the text: it appends the entry
    and returns an error all the same. *)
Lemma wrapHostKeyCallback_no_hostkey (check : KnownHostsCheck)
  (knownHostsFile hostname remote : string) (key : PublicKey)
  (err : error) (fs : FS) :
  check hostname remote key = Some err ->
  Contains (Error err) "no hostkey found" = true ->
  let run :=
    wrapHostKeyCallback os (fun h r k => ret (check h r k)) knownHostsFile
      hostname remote key fs in
  run.1 <> None
  /\ (forall content,
         fs !! knownHostsFile = Some content ->
         os_OpenFile os knownHostsFile = None ->
         os_WriteString os knownHostsFile
           (hostKeyEntry hostname key +:+ nl) = None ->
         run = (Some err,
                <[knownHostsFile :=
                    content +:+ hostKeyEntry hostname key +:+ nl]> fs)).
Proof.
  intros Hcheck Htext run. subst run.
  unfold wrapHostKeyCallback, bind, ret. rewrite Hcheck, Htext.
  split.
  - by destruct (addHostKey os knownHostsFile hostname key fs) as [[e|] fs'].
  - intros content Hfs Hopen Hwrite. unfold addHostKey.
    fold nl. by rewrite Hfs, Hopen, Hwrite.
Qed.

(** C1, as the code behaves: with strict host checking, when the check
    of the known-hosts file refuses the presented key with an error whose
    text does not hold "no hostkey found" (as for a key that conflicts
    with the stored entry), the wrapped callback accepts the key:
    [Connect] succeeds on a host that accepts the credentials, and the
    store is left as it was. *)
Theorem Connect_accepts_conflicting_key (c : SSHClient.t) (fs : FS)
  (knownHostsFile content : string) (check : KnownHostsCheck)
  (auth : list AuthMethod) (remote : string) (key : PublicKey)
  (err : error) :
  let addr :=
    SSHConfig.Host (SSHClient.config c)
      +:+ itoa (SSHConfig.Port (SSHClient.config c)) in
  SSHClient.connected c = false ->
  SSHConfig.StrictHostCheck (SSHClient.config c) = true ->
  SSHConfig.KnownHostsFile (SSHClient.config c) = knownHostsFile ->
  knownHostsFile <> "" ->
  fs !! knownHostsFile = Some content ->
  knownhosts_New content = inl check ->
  addAuthMethods os c = inl auth ->
  net_hostKey net addr = inl (remote, key) ->
  check addr remote key = Some err ->
  Contains (Error err) "no hostkey found" = false ->
  net_auth net auth = None ->
  net_sftp net addr = None ->
  Connect os net c fs
  = ((None, setConnected c (Some addr) (Some addr) true), fs).
Proof.
  intros addr Hc Hstrict Hfile Hne Hfs Hnew Hauth Hkey Hcheck Htext
    Haccept Hsftp.
  unfold Connect. rewrite Hc. unfold bind at 1.
  rewrite (createHostKeyCallback_strict c fs knownHostsFile content check)
    by done.
  rewrite Hauth. fold addr. unfold bind, ssh_Dial. rewrite Hkey.
  unfold bind.
  rewrite (wrapHostKeyCallback_other_error check knownHostsFile addr remote
             key err fs Hcheck Htext).
  unfold ret. by rewrite Haccept, Hsftp.
Qed.

(** C2, as the code behaves: with strict host checking, when the check
    of the known-hosts file refuses the presented key, [Connect] never
    both succeeds and adds to the store. With an error whose text does
    not hold "no hostkey found" (as the one that the knownhosts package
    gives for an unknown host) the store is left as it was. If the text
    does hold it, [Connect] fails and leaves the client unconnected,
    having appended the entry when the file could be written. *)
Theorem Connect_unknown_host (c : SSHClient.t) (fs : FS)
  (knownHostsFile content : string) (check : KnownHostsCheck)
  (auth : list AuthMethod) (remote : string) (key : PublicKey)
  (err : error) :
  let addr :=
    SSHConfig.Host (SSHClient.config c)
      +:+ itoa (SSHConfig.Port (SSHClient.config c)) in
  let run := Connect os net c fs in
  SSHClient.connected c = false ->
  SSHConfig.StrictHostCheck (SSHClient.config c) = true ->
  SSHConfig.KnownHostsFile (SSHClient.config c) = knownHostsFile ->
  knownHostsFile <> "" ->
  fs !! knownHostsFile = Some content ->
  knownhosts_New content = inl check ->
  addAuthMethods os c = inl auth ->
  net_hostKey net addr = inl (remote, key) ->
  check addr remote key = Some err ->
  (run.1.1 = None -> run.2 = fs)
  /\ (Contains (Error err) "no hostkey found" = true ->
      run.1.1 <> None
      /\ SSHClient.connected run.1.2 = false
      /\ (os_OpenFile os knownHostsFile = None ->
          os_WriteString os knownHostsFile
            (hostKeyEntry addr key +:+ nl) = None ->
          run.2
          = <[knownHostsFile :=
                content +:+ hostKeyEntry addr key +:+ nl]> fs))
  /\ (Contains (Error err) "no hostkey found" = false -> run.2 = fs).
Proof.
  intros addr run Hc Hstrict Hfile Hne Hfs Hnew Hauth Hkey Hcheck.
  assert (Hrun :
    run = let (e, fs') :=
            wrapHostKeyCallback os (fun h r k => ret (check h r k))
              knownHostsFile addr remote key fs in
          match e with
          | Some e =>
              ((Some (Errorf "ssh Errorf: "
                        (Errorf "ssh: handshake failed: " e)), c), fs')
          | None =>
              match net_auth net auth with
              | Some e => ((Some (Errorf "ssh Errorf: " e), c), fs')
              | None =>
                  match net_sftp net addr with
                  | Some e =>
                      ((Some (Errorf "Errorf: " e),
                        setConnected c (Some addr) None false), fs')
                  | None =>
                      ((None, setConnected c (Some addr) (Some addr) true),
                       fs')
                  end
              end
          end).
  { subst run. unfold Connect. rewrite Hc. unfold bind at 1.
    rewrite (createHostKeyCallback_strict c fs knownHostsFile content
               check) by done.
    rewrite Hauth. fold addr. unfold bind, ssh_Dial. rewrite Hkey.
    unfold bind.
    destruct (wrapHostKeyCallback _ _ _ _ _ _ _) as [[e|] fs']; [done|].
    unfold ret. destruct (net_auth net auth); [done|].
    simpl. by destruct (net_sftp net addr). }
  destruct (Contains (Error err) "no hostkey found") eqn:Htext.
  - destruct (wrapHostKeyCallback_no_hostkey check knownHostsFile addr
                remote key err fs Hcheck Htext) as [Hrej Happ].
    simpl in Hrej, Happ.
    destruct (wrapHostKeyCallback _ _ _ _ _ _ _) as [[e|] fs'] eqn:Hwrap;
      [|done].
    rewrite Hrun. simpl. split; [done|]. split; [|done].
    intros _. split; [done|]. split; [done|].
    intros Hopen Hwrite. by specialize (Happ content Hfs Hopen Hwrite)
      as [= _ <-].
  - rewrite (wrapHostKeyCallback_other_error check knownHostsFile addr
               remote key err fs Hcheck Htext) in Hrun.
    assert (Hfs' : run.2 = fs).
    { rewrite Hrun. destruct (net_auth net auth); [done|].
      by destruct (net_sftp net addr). }
    split; [done|]. split; [done|]. done.
Qed.

End HostKeyFacts.

Lemma Connect_accepts_conflicting_key_witness :
  stubCheck "knownhosts: key is unknown"
    ("example.com:22 ssh-ed25519 AAAAC3A" +:+ nl)
    "example.com:22" "203.0.113.7:22" keyB
  = Some (errorString "knownhosts: key mismatch")
  /\ Connect (std := stubStd) (xssh := stubSSH "knownhosts: key is unknown")
       stubOS (dialNet keyB) colonClient pinnedColonFS
     = ((None,
         setConnected colonClient (Some "example.com:22")
           (Some "example.com:22") true),
        pinnedColonFS).
Proof.
  split; [vm_compute; reflexivity|].
  apply (Connect_accepts_conflicting_key
           (std := stubStd) (xssh := stubSSH "knownhosts: key is unknown")
           stubOS (dialNet keyB) colonClient pinnedColonFS "/kh"
           ("example.com:22 ssh-ed25519 AAAAC3A" +:+ nl)
           (stubCheck "knownhosts: key is unknown"
              ("example.com:22 ssh-ed25519 AAAAC3A" +:+ nl))
           [Password "secret"] "203.0.113.7:22" keyB
           (errorString "knownhosts: key mismatch")).
  all: try (vm_compute; reflexivity).
  discriminate.
Defined.

Lemma Connect_unknown_host_witness :
  let run :=
    Connect (std := stubStd) (xssh := stubSSH "knownhosts: key is unknown")
      stubOS (dialNet keyB) colonClient emptyFS in
  stubCheck "knownhosts: key is unknown" ""
    "example.com:22" "203.0.113.7:22" keyB
  = Some (errorString "knownhosts: key is unknown")
  /\ run.1.1 = None
  /\ run.2 = emptyFS.
Proof.
  intros run.
  destruct (Connect_unknown_host
              (std := stubStd) (xssh := stubSSH "knownhosts: key is unknown")
              stubOS (dialNet keyB) colonClient emptyFS "/kh" ""
              (stubCheck "knownhosts: key is unknown" "")
              [Password "secret"] "203.0.113.7:22" keyB
              (errorString "knownhosts: key is unknown")
              eq_refl eq_refl eq_refl ltac:(discriminate) eq_refl eq_refl
              eq_refl eq_refl eq_refl) as (_ & _ & Hkept).
  split; [reflexivity|]. split; [vm_compute; reflexivity|].
  exact (Hkept eq_refl).
Defined.

(** The address that [Connect] dials is the host name followed by the port
    with nothing between them: with a host name that does not end in a
    colon the dial fails before any host key is seen. *)
Example Connect_dials_host_and_port_joined :
  Connect (std := stubStd) (xssh := stubSSH "knownhosts: key is unknown")
    stubOS (dialNet keyB) freshClient pinnedFS
  = ((Some (errorString
              "ssh Errorf: dial tcp: address example.com22: missing port in address"),
      freshClient), pinnedFS).
Proof. vm_compute. reflexivity. Qed.

(** ** The reconciliation planner *)

Section PlannerFacts.
Context {std : GoStd}.

Lemma fold_addUpload (item : string * FileInfo.t -> SyncItem.t)
  (sel : string * FileInfo.t -> bool)
  (step : SyncPlan.t -> string * FileInfo.t -> SyncPlan.t) :
  (forall plan e,
      step plan e = if sel e then addUpload (item e) plan else plan) ->
  forall l plan,
    fold_left step l plan
    = SyncPlan.mk (SyncPlan.Upload plan ++ List.map item (List.filter sel l))
        (SyncPlan.Download plan) (SyncPlan.Delete plan).
Proof.
  intros Hstep l; induction l as [|e l IH]; intros plan; simpl.
  - rewrite app_nil_r. by destruct plan.
  - rewrite IH, Hstep. destruct (sel e); simpl; [|done].
    by rewrite <- app_assoc.
Qed.

Lemma fold_addDownload (item : string * FileInfo.t -> SyncItem.t)
  (sel : string * FileInfo.t -> bool)
  (step : SyncPlan.t -> string * FileInfo.t -> SyncPlan.t) :
  (forall plan e,
      step plan e = if sel e then addDownload (item e) plan else plan) ->
  forall l plan,
    fold_left step l plan
    = SyncPlan.mk (SyncPlan.Upload plan)
        (SyncPlan.Download plan ++ List.map item (List.filter sel l))
        (SyncPlan.Delete plan).
Proof.
  intros Hstep l; induction l as [|e l IH]; intros plan; simpl.
  - rewrite app_nil_r. by destruct plan.
  - rewrite IH, Hstep. destruct (sel e); simpl; [|done].
    by rewrite <- app_assoc.
Qed.

Lemma fold_addDelete (item : string * FileInfo.t -> SyncItem.t)
  (sel : string * FileInfo.t -> bool)
  (step : SyncPlan.t -> string * FileInfo.t -> SyncPlan.t) :
  (forall plan e,
      step plan e = if sel e then addDelete (item e) plan else plan) ->
  forall l plan,
    fold_left step l plan
    = SyncPlan.mk (SyncPlan.Upload plan) (SyncPlan.Download plan)
        (SyncPlan.Delete plan ++ List.map item (List.filter sel l)).
Proof.
  intros Hstep l; induction l as [|e l IH]; intros plan; simpl.
  - rewrite app_nil_r. by destruct plan.
  - rewrite IH, Hstep. destruct (sel e); simpl; [|done].
    by rewrite <- app_assoc.
Qed.

(** The plan is made of the items of the queued records, loop by loop. *)
Lemma calculateSyncPlan_queued (rse : RemoteSyncEngine.t)
  (localFiles remoteFiles : gmap string FileInfo.t)
  (localBase remoteBase : string) :
  calculateSyncPlan rse localFiles remoteFiles localBase remoteBase
  = SyncPlan.mk
      (List.map (uploadItem localBase remoteBase)
         (queuedUploads rse localFiles remoteFiles))
      (List.map (downloadItem localBase remoteBase)
         (queuedDownloads rse localFiles remoteFiles))
      (List.map (deleteItem remoteBase)
         (queuedDeletes rse localFiles remoteFiles)).
Proof.
  unfold calculateSyncPlan, queuedUploads, queuedDownloads, queuedDeletes.
  set (d := SyncOptions.Direction (RemoteSyncEngine.options rse)).
  rewrite (fold_addDelete (deleteItem remoteBase)
             (fun entry => bool_decide (localFiles !! entry.1 = None))).
  2:{ intros plan e. case_bool_decide as Hl.
      - by rewrite Hl.
      - by destruct (localFiles !! e.1). }
  rewrite (fold_addDownload (downloadItem localBase remoteBase)
             (fun entry => shouldDownload rse localFiles entry.1 entry.2)).
  2:{ done. }
  rewrite (fold_addUpload (uploadItem localBase remoteBase)
             (fun entry => negb (FileInfo.IsDir entry.2)
                           && shouldUpload rse remoteFiles entry.1 entry.2)).
  2:{ intros plan e. by destruct (FileInfo.IsDir e.2). }
  destruct (includesToRemote d), (includesFromRemote d),
    (SyncOptions.DeleteExtra (RemoteSyncEngine.options rse));
    simpl; by rewrite ?app_nil_r.
Qed.

End PlannerFacts.

Section PlannerClaims.
Context {std : GoStd}.

Lemma filter_none {A : Type} (f : A -> bool) (l : list A) :
  (forall x, x ∈ l -> f x = false) -> List.filter f l = [].
Proof.
  induction l as [|x l IH]; intros Hf; simpl; [done|].
  rewrite (Hf x) by constructor. apply IH. intros y Hy. apply Hf.
  by constructor.
Qed.

Lemma elem_of_filter {A : Type} (f : A -> bool) (l : list A) (x : A) :
  x ∈ List.filter f l <-> x ∈ l /\ f x = true.
Proof. rewrite !list_elem_of_In. apply filter_In. Qed.


Lemma shouldUpload_incremental (rse : RemoteSyncEngine.t)
  (remoteFiles : gmap string FileInfo.t) (relPath : string)
  (localFile : FileInfo.t) :
  RemoteConfig.Incremental (RemoteSyncEngine.config rse) = true ->
  shouldUpload rse remoteFiles relPath localFile = true
  <-> needsUpload remoteFiles relPath localFile.
Proof.
  intros Hinc. unfold shouldUpload, needsUpload, After. rewrite Hinc.
  destruct (remoteFiles !! relPath) as [remoteFile|]; [|naive_solver].
  rewrite orb_true_iff, negb_true_iff, Z.ltb_lt, Z.eqb_neq. split.
  - intros H. right. by exists remoteFile.
  - intros [?|(rf & [= <-] & H)]; done.
Qed.

Lemma elem_of_queuedUploads (rse : RemoteSyncEngine.t)
  (localFiles remoteFiles : gmap string FileInfo.t)
  (relPath : string) (localFile : FileInfo.t) :
  (relPath, localFile) ∈ queuedUploads rse localFiles remoteFiles
  <-> includesToRemote
        (SyncOptions.Direction (RemoteSyncEngine.options rse)) = true
      /\ localFiles !! relPath = Some localFile
      /\ FileInfo.IsDir localFile = false
      /\ shouldUpload rse remoteFiles relPath localFile = true.
Proof.
  unfold queuedUploads. destruct (includesToRemote _).
  - rewrite elem_of_filter, elem_of_map_to_list. simpl.
    rewrite andb_true_iff, negb_true_iff. tauto.
  - rewrite elem_of_nil. intuition discriminate.
Qed.

Lemma elem_of_queuedDownloads (rse : RemoteSyncEngine.t)
  (localFiles remoteFiles : gmap string FileInfo.t)
  (relPath : string) (remoteFile : FileInfo.t) :
  (relPath, remoteFile) ∈ queuedDownloads rse localFiles remoteFiles
  <-> includesFromRemote
        (SyncOptions.Direction (RemoteSyncEngine.options rse)) = true
      /\ remoteFiles !! relPath = Some remoteFile
      /\ shouldDownload rse localFiles relPath remoteFile = true.
Proof.
  unfold queuedDownloads. destruct (includesFromRemote _).
  - rewrite elem_of_filter, elem_of_map_to_list. simpl. tauto.
  - rewrite elem_of_nil. intuition discriminate.
Qed.

Lemma elem_of_queuedDeletes (rse : RemoteSyncEngine.t)
  (localFiles remoteFiles : gmap string FileInfo.t)
  (relPath : string) (remoteFile : FileInfo.t) :
  (relPath, remoteFile) ∈ queuedDeletes rse localFiles remoteFiles
  <-> SyncOptions.DeleteExtra (RemoteSyncEngine.options rse) = true
      /\ includesToRemote
           (SyncOptions.Direction (RemoteSyncEngine.options rse)) = true
      /\ remoteFiles !! relPath = Some remoteFile
      /\ localFiles !! relPath = None.
Proof.
  unfold queuedDeletes.
  destruct (SyncOptions.DeleteExtra _), (includesToRemote _); simpl;
    try (rewrite elem_of_nil; intuition discriminate).
  rewrite elem_of_filter, elem_of_map_to_list. simpl.
  rewrite bool_decide_eq_true. tauto.
Qed.

(** C3, as amended: for inventories with identical contents the planner
    produces an empty upload set, an empty download set and an empty
    delete set under every direction and delete-extra flag, provided
    that incremental mode is on or the force flag is off. *)
Theorem identical_inventories_plan_empty (rse : RemoteSyncEngine.t)
  (localFiles remoteFiles : gmap string FileInfo.t)
  (localBase remoteBase : string) :
  identicalInventories localFiles remoteFiles ->
  RemoteConfig.Incremental (RemoteSyncEngine.config rse) = true
  \/ SyncOptions.Force (RemoteSyncEngine.options rse) = false ->
  calculateSyncPlan rse localFiles remoteFiles localBase remoteBase
  = SyncPlan.mk [] [] [].
Proof.
  intros Hid Hmode. rewrite calculateSyncPlan_queued.
  assert (Hup : queuedUploads rse localFiles remoteFiles = []).
  { unfold queuedUploads. case (includesToRemote _); [|done].
    apply filter_none. intros [relPath localFile] Hin.
    apply elem_of_map_to_list in Hin. specialize (Hid relPath).
    rewrite Hin in Hid. simpl. unfold shouldUpload, After.
    destruct (remoteFiles !! relPath) as [remoteFile|]; [|done].
    destruct Hid as [-> ->]. rewrite Z.ltb_irrefl, Z.eqb_refl. simpl.
    destruct Hmode as [-> | ->];
      [|destruct (RemoteConfig.Incremental _)]; apply andb_false_r. }
  assert (Hdown : queuedDownloads rse localFiles remoteFiles = []).
  { unfold queuedDownloads. case (includesFromRemote _); [|done].
    apply filter_none. intros [relPath remoteFile] Hin.
    apply elem_of_map_to_list in Hin. specialize (Hid relPath).
    rewrite Hin in Hid. simpl. unfold shouldDownload, After.
    destruct (localFiles !! relPath) as [localFile|]; [|done].
    destruct Hid as [-> ->]. rewrite Z.ltb_irrefl, Z.eqb_refl. simpl.
    destruct Hmode as [-> | ->];
      [|destruct (RemoteConfig.Incremental _)]; done. }
  assert (Hdel : queuedDeletes rse localFiles remoteFiles = []).
  { unfold queuedDeletes. case (_ && _); [|done].
    apply filter_none. intros [relPath remoteFile] Hin.
    apply elem_of_map_to_list in Hin. specialize (Hid relPath).
    rewrite Hin in Hid. simpl. apply bool_decide_eq_false.
    by destruct (localFiles !! relPath). }
  by rewrite Hup, Hdown, Hdel.
Qed.

(** The upload rule of incremental mode on any inventory: the upload set
    is made of the items of the queued local records, and a local record
    that is not marked as a directory is queued if and only if no remote
    record shares its path, or its modification time is strictly newer
    than the remote's, or the sizes differ. *)
Theorem incremental_upload_iff (rse : RemoteSyncEngine.t)
  (localFiles remoteFiles : gmap string FileInfo.t)
  (localBase remoteBase : string) :
  RemoteConfig.Incremental (RemoteSyncEngine.config rse) = true ->
  SyncOptions.Direction (RemoteSyncEngine.options rse) = SyncToRemote
  \/ SyncOptions.Direction (RemoteSyncEngine.options rse) = SyncBoth ->
  let plan :=
    calculateSyncPlan rse localFiles remoteFiles localBase remoteBase in
  let queued := queuedUploads rse localFiles remoteFiles in
  SyncPlan.Upload plan = List.map (uploadItem localBase remoteBase) queued
  /\ (forall relPath localFile,
         (relPath, localFile) ∈ queued ->
         localFiles !! relPath = Some localFile)
  /\ (forall relPath localFile,
         localFiles !! relPath = Some localFile ->
         FileInfo.IsDir localFile = false ->
         (relPath, localFile) ∈ queued
         <-> needsUpload remoteFiles relPath localFile)
  /\ (forall relPath localFile remoteFile,
         localFiles !! relPath = Some localFile ->
         remoteFiles !! relPath = Some remoteFile ->
         FileInfo.Size localFile = FileInfo.Size remoteFile ->
         FileInfo.ModTime localFile <= FileInfo.ModTime remoteFile ->
         (relPath, localFile) ∉ queued).
Proof.
  intros Hinc Hdir plan queued.
  assert (Hq : forall relPath localFile,
             (relPath, localFile) ∈ queued
             <-> localFiles !! relPath = Some localFile
                 /\ FileInfo.IsDir localFile = false
                 /\ needsUpload remoteFiles relPath localFile).
  { intros relPath localFile. subst queued. unfold queuedUploads.
    replace (includesToRemote _) with true
      by (unfold includesToRemote; by destruct Hdir as [-> | ->]).
    rewrite elem_of_filter, elem_of_map_to_list. simpl.
    rewrite andb_true_iff, negb_true_iff.
    by rewrite shouldUpload_incremental. }
  split; [|split; [|split]].
  - subst plan. by rewrite calculateSyncPlan_queued.
  - intros relPath localFile Hin. by apply Hq in Hin as [? _].
  - intros relPath localFile Hl Hd. rewrite Hq. tauto.
  - intros relPath localFile remoteFile Hl Hr Hsize Htime Hin.
    apply Hq in Hin as (_ & _ & [Hnone | (rf & Hrf & Hnewer)]).
    + congruence.
    + assert (rf = remoteFile) as -> by congruence. lia.
Qed.


End PlannerClaims.

(** C3, counterexample: with incremental mode off and the force flag on, a
    file that is identical on both sides is queued for upload. *)
Lemma identical_inventories_forced_upload :
  identicalInventories sameInventory sameInventory
  /\ calculateSyncPlan (std := stubStd)
       (stubEngine false SyncToRemote false true false)
       sameInventory sameInventory "/home/u" "/srv/data"
     = SyncPlan.mk
         [SyncItem.mk "/home/u/a.txt" "/srv/data/a.txt" 10 "upload"] [] []
  /\ calculateSyncPlan (std := stubStd)
       (stubEngine false SyncToRemote false true false)
       sameInventory sameInventory "/home/u" "/srv/data"
     <> SyncPlan.mk [] [] [].
Proof.
  split; [|split].
  - intros relPath. by destruct (sameInventory !! relPath).
  - vm_compute. reflexivity.
  - vm_compute. discriminate.
Qed.

Lemma identical_inventories_plan_empty_witness :
  identicalInventories sameInventory sameInventory
  /\ calculateSyncPlan (std := stubStd)
       (stubEngine true SyncBoth false true true)
       sameInventory sameInventory "/home/u" "/srv/data"
     = SyncPlan.mk [] [] [].
Proof.
  assert (Hid : identicalInventories sameInventory sameInventory).
  { intros relPath. destruct (sameInventory !! relPath); [split|];
      reflexivity || exact I. }
  split; [exact Hid|].
  apply (identical_inventories_plan_empty (std := stubStd)
           (stubEngine true SyncBoth false true true)
           sameInventory sameInventory "/home/u" "/srv/data" Hid).
  left. reflexivity.
Defined.

(** The guard of the upload loop: a record marked as a directory, which
    neither collector makes, is skipped. *)
Lemma directory_record_not_queued :
  dirInventory !! "docs" = Some (FileInfo.mk "docs" 4096 100 true "")
  /\ (∅ : gmap string FileInfo.t) !! "docs" = None
  /\ SyncPlan.Upload
       (calculateSyncPlan (std := stubStd)
          (stubEngine true SyncToRemote false false false)
          dirInventory ∅ "/home/u" "/srv/data")
     = [].
Proof. split; [|split]; vm_compute; reflexivity. Qed.

Lemma incremental_upload_iff_witness :
  RemoteConfig.Incremental
    (RemoteSyncEngine.config (stubEngine true SyncToRemote false false false))
  = true
  /\ (("a.txt", regular "a.txt" 1 100)
        ∈ queuedUploads (stubEngine true SyncToRemote false false false)
            localTree remoteTree
      <-> needsUpload remoteTree "a.txt" (regular "a.txt" 1 100)).
Proof.
  split; [reflexivity|].
  destruct (incremental_upload_iff (std := stubStd)
              (stubEngine true SyncToRemote false false false)
              localTree remoteTree "/home/u" "/srv/data"
              eq_refl (or_introl eq_refl)) as (_ & _ & Hiff & _).
  apply Hiff; reflexivity.
Defined.



(** ** The plan executor *)

Section ExecutorFacts.
Context {std : GoStd}.
Variable W : World.

Lemma transportCalls_app (evs1 evs2 : Trace) :
  transportCalls (evs1 ++ evs2) = transportCalls evs1 ++ transportCalls evs2.
Proof. unfold transportCalls. apply List.filter_app. Qed.

Lemma failedCalls_app (c : SSHClient.t) (evs1 evs2 : Trace) (t : Trace) :
  failedCalls W c t (evs1 ++ evs2)
  = (failedCalls W c t evs1 + failedCalls W c (t ++ evs1) evs2)%nat.
Proof.
  revert t. induction evs1 as [|ev evs1 IH]; intros t; simpl.
  - by rewrite app_nil_r.
  - rewrite IH, <- app_assoc. simpl. lia.
Qed.

Lemma accounted_nil (c : SSHClient.t) (t : Trace) (result : SyncResult.t) :
  accounted W c t result [] result.
Proof.
  split; [done|]. split; [|done]. exists []. by rewrite app_nil_r.
Qed.

Lemma accounted_app (c : SSHClient.t) (t : Trace) (evs1 evs2 : Trace)
  (r0 r1 r2 : SyncResult.t) :
  accounted W c t r0 evs1 r1 ->
  accounted W c (t ++ evs1) r1 evs2 r2 ->
  accounted W c t r0 (evs1 ++ evs2) r2.
Proof.
  intros (He1 & (m1 & Hm1 & Hl1) & Hs1) (He2 & (m2 & Hm2 & Hl2) & Hs2).
  unfold accounted. rewrite failedCalls_app. split; [|split].
  - rewrite He2, He1, Nat.add_comm. symmetry. apply Nat.iter_add.
  - exists (m1 ++ m2). split.
    + by rewrite Hm2, Hm1, <- app_assoc.
    + rewrite length_app. lia.
  - congruence.
Qed.

(** Events that are not calls of the transport client change nothing. *)
Lemma accounted_silent (c : SSHClient.t) (t : Trace) (ev : Event)
  (result : SyncResult.t) :
  isTransportCall ev = false -> accounted W c t result [ev] result.
Proof.
  intros Hev. unfold accounted. simpl.
  replace (callFails W c t ev) with false by (by destruct ev).
  split; [done|]. split; [|done]. exists []. by rewrite app_nil_r.
Qed.

Lemma forEach_iterates (c : SSHClient.t)
  (one : SyncResult.t -> SyncItem.t -> State Trace SyncResult.t)
  (call : SyncItem.t -> Event) :
  iterates W c one call ->
  forall items result t,
  exists evs,
    (forEach items one result t).2 = t ++ evs
    /\ transportCalls evs = List.map call items
    /\ accounted W c t result evs (forEach items one result t).1.
Proof.
  intros Hone items. induction items as [|item items IH]; intros result t.
  - exists []. simpl. rewrite app_nil_r. split; [done|]. split; [done|].
    apply accounted_nil.
  - destruct (Hone result item t) as (evs1 & Ht1 & Hc1 & Ha1).
    simpl. unfold bind. destruct (one result item t) as [r1 t1].
    simpl in Ht1, Ha1. subst t1.
    destruct (IH r1 (t ++ evs1)) as (evs2 & Ht2 & Hc2 & Ha2).
    exists (evs1 ++ evs2). rewrite Ht2, app_assoc. split; [done|].
    rewrite transportCalls_app, Hc1, Hc2. split; [done|].
    by apply accounted_app with r1.
Qed.

Lemma accounted_call (c : SSHClient.t) (t : Trace) (ev : Event)
  (result : SyncResult.t) (err : option error) (msg : error -> string)
  (ok : SyncResult.t) :
  callFails W c t ev = failed err ->
  SyncResult.ErrorFiles ok = SyncResult.ErrorFiles result ->
  SyncResult.Errors ok = SyncResult.Errors result ->
  SyncResult.SkippedFiles ok = SyncResult.SkippedFiles result ->
  accounted W c t result [ev]
    match err with
    | Some err => addError (msg err) result
    | None => ok
    end.
Proof.
  intros Hev He Hm Hs. unfold accounted. simpl. rewrite Hev.
  destruct err as [err|]; simpl.
  - split; [done|]. split; [|done]. by exists [msg err].
  - split; [done|]. split; [|done]. exists []. by rewrite app_nil_r.
Qed.

Lemma uploadOne_iterates (rse : RemoteSyncEngine.t) (bar : bool) :
  iterates W (RemoteSyncEngine.sshClient rse) (uploadOne W rse bar) uploadCall.
Proof.
  intros result item t. unfold uploadOne, bind, when, UploadFile, emit, ret.
  destruct bar, (SyncOptions.Verbose (RemoteSyncEngine.options rse)).
  all: match goal with
       | |- context [uploadResult W ?c ?t' ?l ?r] =>
           pose proof (accounted_call c t' (UploadEv l r) result
                         (uploadResult W c t' l r) (uploadFailed item)
                         (addUploaded (SyncItem.Size item) result)
                         eq_refl eq_refl eq_refl eq_refl) as Hcall;
           destruct (uploadResult W c t' l r)
       end.
  all: eexists; (split; [simpl; rewrite <- ?app_assoc; reflexivity|]);
    (split; [reflexivity|]); simpl.
  all: repeat (eapply (accounted_app _ t [_]);
               [by apply accounted_silent|]); exact Hcall.
Qed.

Lemma downloadOne_iterates (rse : RemoteSyncEngine.t) (bar : bool) :
  iterates W (RemoteSyncEngine.sshClient rse) (downloadOne W rse bar)
    downloadCall.
Proof.
  intros result item t.
  unfold downloadOne, bind, when, DownloadFile, emit, ret.
  destruct bar, (SyncOptions.Verbose (RemoteSyncEngine.options rse)).
  all: match goal with
       | |- context [downloadResult W ?c ?t' ?r ?l] =>
           pose proof (accounted_call c t' (DownloadEv r l) result
                         (downloadResult W c t' r l) (downloadFailed item)
                         (addDownloaded (SyncItem.Size item) result)
                         eq_refl eq_refl eq_refl eq_refl) as Hcall;
           destruct (downloadResult W c t' r l)
       end.
  all: eexists; (split; [simpl; rewrite <- ?app_assoc; reflexivity|]);
    (split; [reflexivity|]); simpl.
  all: repeat (eapply (accounted_app _ t [_]);
               [by apply accounted_silent|]); exact Hcall.
Qed.

Lemma deleteOne_iterates (rse : RemoteSyncEngine.t) (bar : bool) :
  iterates W (RemoteSyncEngine.sshClient rse) (deleteOne W rse bar) deleteCall.
Proof.
  intros result item t.
  unfold deleteOne, bind, when, ExecuteCommand, emit, ret.
  destruct bar, (SyncOptions.Verbose (RemoteSyncEngine.options rse)).
  all: match goal with
       | |- context [execResult W ?c ?t' ?cmd] =>
           pose proof (accounted_call c t' (ExecEv cmd) result
                         (execResult W c t' cmd).2 (deleteFailed item)
                         (addDeleted result)
                         eq_refl eq_refl eq_refl eq_refl) as Hcall;
           destruct (execResult W c t' cmd) as [output [err|]]
       end.
  all: eexists; (split; [simpl; rewrite <- ?app_assoc; reflexivity|]);
    (split; [reflexivity|]); simpl.
  all: repeat (eapply (accounted_app _ t [_]);
               [by apply accounted_silent|]); exact Hcall.
Qed.

End ExecutorFacts.

Section ExecutorClaims.
Context {std : GoStd}.
Variable W : World.

(** The executor returns no error, calls the transport client once for
    each item in the order of the plan, and keeps the books. *)
Lemma executeSyncPlan_accounted (rse : RemoteSyncEngine.t)
  (plan : SyncPlan.t) (result : SyncResult.t) (t : Trace) :
  exists evs result',
    executeSyncPlan W rse plan result t = ((result', None), t ++ evs)
    /\ transportCalls evs
       = List.map uploadCall (SyncPlan.Upload plan)
         ++ List.map downloadCall (SyncPlan.Download plan)
         ++ List.map deleteCall (SyncPlan.Delete plan)
    /\ accounted W (RemoteSyncEngine.sshClient rse) t result evs result'.
Proof.
  set (c := RemoteSyncEngine.sshClient rse).
  unfold executeSyncPlan.
  set (total := len (SyncPlan.Upload plan) + len (SyncPlan.Download plan)
                + len (SyncPlan.Delete plan)).
  set (bar := SyncOptions.Progress (RemoteSyncEngine.options rse)
              && (0 <? total)).
  set (evs0 := if bar then [BarStartEv total] else []).
  set (evs4 := if bar then [BarFinishEv] else []).
  assert (H0 : when bar (emit (BarStartEv total)) t = (tt, t ++ evs0)).
  { subst evs0. destruct bar; simpl; [done|]. by rewrite app_nil_r. }
  assert (Ha0 : accounted W c t result evs0 result).
  { subst evs0. destruct bar; [by apply accounted_silent|].
    apply accounted_nil. }
  destruct (forEach_iterates W c _ _ (uploadOne_iterates W rse bar)
              (SyncPlan.Upload plan) result (t ++ evs0))
    as (evs1 & Ht1 & Hc1 & Ha1).
  destruct (forEach (SyncPlan.Upload plan) (uploadOne W rse bar) result
              (t ++ evs0)) as [r1 t1] eqn:E1.
  simpl in Ht1, Ha1. subst t1.
  destruct (forEach_iterates W c _ _ (downloadOne_iterates W rse bar)
              (SyncPlan.Download plan) r1 ((t ++ evs0) ++ evs1))
    as (evs2 & Ht2 & Hc2 & Ha2).
  destruct (forEach (SyncPlan.Download plan) (downloadOne W rse bar) r1
              ((t ++ evs0) ++ evs1)) as [r2 t2] eqn:E2.
  simpl in Ht2, Ha2. subst t2.
  destruct (forEach_iterates W c _ _ (deleteOne_iterates W rse bar)
              (SyncPlan.Delete plan) r2 (((t ++ evs0) ++ evs1) ++ evs2))
    as (evs3 & Ht3 & Hc3 & Ha3).
  destruct (forEach (SyncPlan.Delete plan) (deleteOne W rse bar) r2
              (((t ++ evs0) ++ evs1) ++ evs2)) as [r3 t3] eqn:E3.
  simpl in Ht3, Ha3. subst t3.
  exists (evs0 ++ evs1 ++ evs2 ++ evs3 ++ evs4), r3.
  split; [|split].
  - unfold bind. rewrite H0, E1, E2, E3. unfold ret. f_equal.
    subst evs4. destruct bar; simpl; rewrite <- ?app_assoc.
    + reflexivity.
    + by rewrite app_nil_r.
  - rewrite !transportCalls_app, Hc1, Hc2, Hc3.
    replace (transportCalls evs0) with (@nil Event)
      by (subst evs0; by destruct bar).
    replace (transportCalls evs4) with (@nil Event)
      by (subst evs4; by destruct bar).
    by rewrite app_nil_r.
  - apply accounted_app with result; [done|].
    apply accounted_app with r1; [done|].
    apply accounted_app with r2; [done|].
    apply accounted_app with r3; [done|].
    subst evs4. destruct bar; [by apply accounted_silent|].
    apply accounted_nil.
Qed.

(** C8: for every plan the executor processes every item and returns no
    error: the transport client is called once for each item, uploads
    first, then downloads, then deletions, whatever the calls return;
    [ErrorFiles] is incremented once and [Errors] grows by one message
    for each call that fails. *)
Theorem executeSyncPlan_continues (rse : RemoteSyncEngine.t)
  (plan : SyncPlan.t) (result : SyncResult.t) (t : Trace) :
  exists evs result',
    executeSyncPlan W rse plan result t = ((result', None), t ++ evs)
    /\ transportCalls evs
       = List.map uploadCall (SyncPlan.Upload plan)
         ++ List.map downloadCall (SyncPlan.Download plan)
         ++ List.map deleteCall (SyncPlan.Delete plan)
    /\ SyncResult.ErrorFiles result'
       = Nat.iter (failedCalls W (RemoteSyncEngine.sshClient rse) t evs)
           incr (SyncResult.ErrorFiles result)
    /\ exists msgs,
         SyncResult.Errors result' = SyncResult.Errors result ++ msgs
         /\ length msgs
            = failedCalls W (RemoteSyncEngine.sshClient rse) t evs.
Proof.
  destruct (executeSyncPlan_accounted rse plan result t)
    as (evs & result' & Hrun & Hcalls & Herr & Hmsgs & _).
  exists evs, result'. auto.
Qed.

Lemma forEach_printLine (line : SyncItem.t -> string)
  (items : list SyncItem.t) (t : Trace) :
  forEach items (printLine line) tt t
  = (tt, t ++ List.map (fun item => PrintEv (line item)) items).
Proof.
  revert t. induction items as [|item items IH]; intros t; simpl.
  - by rewrite app_nil_r.
  - unfold bind, printLine at 1, emit. rewrite IH, <- app_assoc. done.
Qed.

Lemma transportCalls_prints {A : Type} (line : A -> string) (items : list A) :
  transportCalls (List.map (fun item => PrintEv (line item)) items) = [].
Proof. induction items; simpl; auto. Qed.

Lemma printSyncPlan_prints (plan : SyncPlan.t) (t : Trace) :
  exists evs,
    printSyncPlan plan t = (tt, t ++ evs) /\ transportCalls evs = [].
Proof.
  unfold printSyncPlan, bind, emit.
  destruct (0 <? len (SyncPlan.Upload plan)),
    (0 <? len (SyncPlan.Download plan)),
    (0 <? len (SyncPlan.Delete plan));
    unfold ret; rewrite ?forEach_printLine; rewrite <- ?app_assoc;
    eexists; (split; [reflexivity|]);
    simpl; rewrite ?transportCalls_app, ?transportCalls_prints; simpl;
    rewrite ?transportCalls_app, ?transportCalls_prints; simpl;
    rewrite ?transportCalls_app, ?transportCalls_prints; reflexivity.
Qed.

End ExecutorClaims.

(** ** A synchronisation run *)

Section RunClaims.
Context {std : GoStd}.
Variable W : World.

Lemma rm_is_not_mkdir (p q : string) : rmCommand p <> mkdirCommand q.
Proof. unfold rmCommand, mkdirCommand. simpl. discriminate. Qed.

Lemma rm_is_not_find (p q : string) : rmCommand p <> findCommand q.
Proof. unfold rmCommand, findCommand. simpl. discriminate. Qed.

Lemma elem_of_transportCalls (ev : Event) (evs : Trace) :
  ev ∈ evs -> isTransportCall ev = true -> ev ∈ transportCalls evs.
Proof.
  intros Hin Hcall. unfold transportCalls.
  rewrite list_elem_of_In. apply filter_In. by rewrite <- list_elem_of_In.
Qed.

Lemma ensureRemoteDirectory_eq (rse : RemoteSyncEngine.t)
  (remotePath : string) (t : Trace) :
  ensureRemoteDirectory W rse remotePath t
  = ((execResult W (RemoteSyncEngine.sshClient rse) t
        (mkdirCommand remotePath)).2,
     t ++ [ExecEv (mkdirCommand remotePath)]).
Proof.
  unfold ensureRemoteDirectory, bind, ExecuteCommand, ret.
  by destruct (execResult W _ t _).
Qed.

Lemma scanRemoteFiles_eq (rse : RemoteSyncEngine.t)
  (remotePath : string) (t : Trace) :
  scanRemoteFiles W rse remotePath t
  = ((listedFiles rse
        (execResult W (RemoteSyncEngine.sshClient rse) t
           (findCommand remotePath)), None),
     t ++ [ExecEv (findCommand remotePath)]).
Proof.
  unfold scanRemoteFiles, listedFiles, bind, ExecuteCommand, ret.
  by destruct (execResult W _ t _) as [output [err|]].
Qed.

Lemma when_emit (b : bool) (ev : Event) (t : Trace) :
  when b (emit ev) t = (tt, t ++ (if b then [ev] else [])).
Proof. destruct b; simpl; [done|]. by rewrite app_nil_r. Qed.

(** [SyncDirectory], once the remote directory exists and the local scan
    has succeeded. *)
Lemma SyncDirectory_eq (rse : RemoteSyncEngine.t)
  (localPath remotePath : string) (t : Trace) :
  let c := RemoteSyncEngine.sshClient rse in
  let remote := absoluteRemote rse remotePath in
  let t1 := t ++ [ExecEv (mkdirCommand remote)] in
  SyncDirectory W rse localPath remotePath t
  = if negb (IsConnected c) then ((None, Some (errorString "SSH未连接")), t)
    else
      match (execResult W c t (mkdirCommand remote)).2 with
      | Some err => ((None, Some (Errorf "创建远程目录失败: " err)), t1)
      | None =>
          match scanLocalFiles W rse localPath with
          | inr err => ((None, Some (Errorf "扫描本地文件失败: " err)), t1)
          | inl localFiles =>
              let remoteFiles :=
                listedFiles rse (execResult W c t1 (findCommand remote)) in
              let plan :=
                calculateSyncPlan rse localFiles remoteFiles
                  localPath remote in
              let result :=
                setTotalFiles
                  (len (SyncPlan.Upload plan) + len (SyncPlan.Download plan)
                   + len (SyncPlan.Delete plan))
                  (SyncResult.mk 0 0 0 0 0 0 0 0 []) in
              let t3 :=
                (t1 ++ [ExecEv (findCommand remote)])
                ++ (if SyncOptions.Verbose (RemoteSyncEngine.options rse)
                    then [PrintEv ("同步计划: " +:+ counts plan)] else []) in
              if SyncOptions.DryRun (RemoteSyncEngine.options rse) then
                let t4 := (printSyncPlan plan t3).2 in
                ((Some (setDuration (w_elapsed W t4) result), None), t4)
              else
                let run := executeSyncPlan W rse plan result t3 in
                match run.1.2 with
                | Some err => ((Some run.1.1, Some err), run.2)
                | None =>
                    ((Some (setDuration (w_elapsed W run.2) run.1.1), None),
                     run.2)
                end
          end
      end.
Proof.
  intros c remote t1. unfold SyncDirectory. fold c remote.
  destruct (IsConnected c); simpl; [|done].
  unfold bind at 1. rewrite ensureRemoteDirectory_eq. fold c t1.
  destruct (execResult W c t (mkdirCommand remote)) as [out [err|]];
    simpl; [done|].
  destruct (scanLocalFiles W rse localPath) as [localFiles|err]; [|done].
  unfold bind at 1. rewrite scanRemoteFiles_eq. fold c.
  unfold bind at 1. rewrite when_emit.
  destruct (SyncOptions.DryRun (RemoteSyncEngine.options rse)).
  - unfold bind. by destruct (printSyncPlan _ _) as [[] t4].
  - unfold bind. destruct (executeSyncPlan W rse _ _ _) as [[r [e|]] t4];
      done.
Qed.

(** C6: when the dry-run option is set, a run reaches the transport
    client with the command that creates the remote directory and with
    the listing command at most, so with no upload, no download and no
    deletion command; every other event is text written to the terminal,
    and the result returned carries no count and no message of the
    executor. *)
Theorem dry_run_no_plan_operations (rse : RemoteSyncEngine.t)
  (localPath remotePath : string) (t : Trace) :
  SyncOptions.DryRun (RemoteSyncEngine.options rse) = true ->
  let remote := absoluteRemote rse remotePath in
  let run := SyncDirectory W rse localPath remotePath t in
  exists evs,
    run.2 = t ++ evs
    /\ (forall ev,
           ev ∈ transportCalls evs ->
           ev = ExecEv (mkdirCommand remote)
           \/ ev = ExecEv (findCommand remote))
    /\ (forall localFile remoteFile,
           UploadEv localFile remoteFile ∉ evs)
    /\ (forall remoteFile localFile,
           DownloadEv remoteFile localFile ∉ evs)
    /\ (forall remoteFile, ExecEv (rmCommand remoteFile) ∉ evs)
    /\ (forall result,
           run.1.1 = Some result ->
           SyncResult.UploadedFiles result = 0
           /\ SyncResult.DownloadFiles result = 0
           /\ SyncResult.DeletedFiles result = 0
           /\ SyncResult.ErrorFiles result = 0
           /\ SyncResult.Errors result = []).
Proof.
  intros Hdry remote run.
  assert (Hrun : exists evs,
             run.2 = t ++ evs
             /\ (forall ev,
                    ev ∈ transportCalls evs ->
                    ev = ExecEv (mkdirCommand remote)
                    \/ ev = ExecEv (findCommand remote))
             /\ (forall result,
                    run.1.1 = Some result ->
                    SyncResult.UploadedFiles result = 0
                    /\ SyncResult.DownloadFiles result = 0
                    /\ SyncResult.DeletedFiles result = 0
                    /\ SyncResult.ErrorFiles result = 0
                    /\ SyncResult.Errors result = [])).
  { subst run. rewrite SyncDirectory_eq. fold remote. rewrite Hdry.
    destruct (IsConnected _); simpl.
    2:{ exists []. rewrite app_nil_r. split; [done|].
        split; [by intros ev Hev; apply elem_of_nil in Hev|].
        by intros result [=]. }
    destruct (execResult W _ t (mkdirCommand remote)).2.
    { exists [ExecEv (mkdirCommand remote)]. split; [done|]. simpl.
      split; [|by intros result [=]].
      intros ev Hev. apply list_elem_of_singleton in Hev. by left. }
    destruct (scanLocalFiles W rse localPath) as [localFiles|err].
    2:{ exists [ExecEv (mkdirCommand remote)]. split; [done|]. simpl.
        split; [|by intros result [=]].
        intros ev Hev. apply list_elem_of_singleton in Hev. by left. }
    simpl.
    match goal with
    | |- context [printSyncPlan ?plan ?t3] =>
        destruct (printSyncPlan_prints plan t3) as (evs4 & Hp & Hc4);
        rewrite Hp
    end.
    simpl.
    eexists. split; [rewrite <- !app_assoc; reflexivity|].
    split.
    - intros ev. rewrite !transportCalls_app, Hc4.
      replace (transportCalls (if SyncOptions.Verbose _ then _ else _))
        with (@nil Event) by (by destruct (SyncOptions.Verbose _)).
      unfold transportCalls. simpl. rewrite list_elem_of_In. simpl.
      intuition auto.
    - intros result [= <-]. done. }
  destruct Hrun as (evs & Ht & Hcalls & Hres). exists evs.
  split; [done|]. split; [done|].
  split; [|split; [|split; [|done]]].
  - intros l r Hin. apply elem_of_transportCalls in Hin; [|done].
    by destruct (Hcalls _ Hin).
  - intros r l Hin. apply elem_of_transportCalls in Hin; [|done].
    by destruct (Hcalls _ Hin).
  - intros p Hin. apply elem_of_transportCalls in Hin; [|done].
    destruct (Hcalls _ Hin) as [H | H].
    + apply (rm_is_not_mkdir p remote). congruence.
    + apply (rm_is_not_find p remote). congruence.
Qed.

(** C9: the result that a run returns has [SkippedFiles] equal to 0,
    for every plan and whatever the calls of the transport client
    return. *)
Theorem SyncDirectory_skipped_zero (rse : RemoteSyncEngine.t)
  (localPath remotePath : string) (t : Trace) (result : SyncResult.t) :
  (SyncDirectory W rse localPath remotePath t).1.1 = Some result ->
  SyncResult.SkippedFiles result = 0.
Proof.
  rewrite SyncDirectory_eq.
  destruct (IsConnected _); simpl; [|done].
  destruct (execResult W _ t _).2; [done|].
  destruct (scanLocalFiles W rse localPath) as [localFiles|err]; [|done].
  simpl. destruct (SyncOptions.DryRun _).
  - by intros [= <-].
  - match goal with
    | |- context [executeSyncPlan W rse ?plan ?r0 ?t3] =>
        destruct (executeSyncPlan_accounted W rse plan r0 t3)
          as (evs & r & Hrun & _ & _ & _ & Hskip);
        rewrite Hrun
    end.
    simpl. intros [= <-]. simpl. by rewrite Hskip.
Qed.

(** The executor leaves [SkippedFiles] as it finds it. *)
Lemma executeSyncPlan_skipped (rse : RemoteSyncEngine.t)
  (plan : SyncPlan.t) (result : SyncResult.t) (t : Trace) :
  SyncResult.SkippedFiles (executeSyncPlan W rse plan result t).1.1
  = SyncResult.SkippedFiles result.
Proof.
  destruct (executeSyncPlan_accounted W rse plan result t)
    as (evs & r & Hrun & _ & _ & _ & Hskip).
  by rewrite Hrun.
Qed.

(** C7: when the listing command returns an error, or returns nothing
    but white space (what the command prints for a directory that is
    missing or unreadable), the collector returns an empty inventory and
    no error. *)
Theorem scanRemoteFiles_missing_directory (rse : RemoteSyncEngine.t)
  (remotePath : string) (t : Trace) :
  let listing :=
    execResult W (RemoteSyncEngine.sshClient rse) t
      (findCommand remotePath) in
  failed listing.2 = true \/ TrimSpace listing.1 = "" ->
  scanRemoteFiles W rse remotePath t
  = ((∅, None), t ++ [ExecEv (findCommand remotePath)]).
Proof.
  intros listing Hmissing. rewrite scanRemoteFiles_eq. fold listing.
  f_equal. f_equal. unfold listedFiles.
  destruct listing.2 as [err|]; [done|].
  destruct Hmissing as [Hfail | Hempty]; [done|].
  by rewrite Hempty.
Qed.

(** The collector never returns an error. *)
Lemma scanRemoteFiles_no_error (rse : RemoteSyncEngine.t)
  (remotePath : string) (t : Trace) :
  (scanRemoteFiles W rse remotePath t).1.2 = None.
Proof. by rewrite scanRemoteFiles_eq. Qed.

(** C10: for a connected client, [FIleExists] returns [(false, err)] when
    the remote stat reports that the path does not exist, and
    [(true, nil)] when the stat fails with any other error. *)
Theorem FIleExists_stat_error (c : SSHClient.t) (remotePath : string)
  (t : Trace) (err : error) :
  SSHClient.connected c = true ->
  w_stat W t remotePath = Some err ->
  (IsNotExist err = true ->
   FIleExists W c remotePath t
   = ((false, Some err), t ++ [StatEv remotePath]))
  /\ (IsNotExist err = false ->
      FIleExists W c remotePath t
      = ((true, None), t ++ [StatEv remotePath])).
Proof.
  intros Hc Hstat. unfold FIleExists. rewrite Hc, Hstat. simpl.
  split; intros ->; reflexivity.
Qed.

End RunClaims.

Lemma dry_run_no_plan_operations_witness :
  SyncOptions.DryRun
    (RemoteSyncEngine.options (stubEngine true SyncBoth true false true))
  = true
  /\ exists evs,
       (SyncDirectory (std := stubStd) stubWorld
          (stubEngine true SyncBoth true false true)
          "/home/u" "/srv/data" []).2 = [] ++ evs
       /\ (forall localFile remoteFile, UploadEv localFile remoteFile ∉ evs)
       /\ (forall remoteFile localFile, DownloadEv remoteFile localFile ∉ evs)
       /\ (forall remoteFile, ExecEv (rmCommand remoteFile) ∉ evs).
Proof.
  split; [reflexivity|].
  destruct (dry_run_no_plan_operations (std := stubStd) stubWorld
              (stubEngine true SyncBoth true false true)
              "/home/u" "/srv/data" [] eq_refl)
    as (evs & Ht & _ & Hup & Hdown & Hrm & _).
  exists evs. repeat split; assumption.
Defined.

(** The same run without the dry-run option: two uploads, one download and
    one deletion reach the transport client; two of them fail and the run
    goes on. *)
Example run_with_failures :
  let run :=
    SyncDirectory (std := stubStd) stubWorld
      (stubEngine true SyncBoth false false true) "/home/u" "/srv/data" [] in
  run.1 = (Some (SyncResult.mk 4 1 1 0 0 2 15 1000
                   ["上传失败 /home/u/b.txt: Errorf: permission denied";
                    "删除失败 /srv/data/c.txt: Errorf: Process exited with status 1"]),
           None)
  /\ transportCalls run.2
     = [ExecEv (mkdirCommand "/srv/data"); ExecEv (findCommand "/srv/data");
        UploadEv "/home/u/a.txt" "/srv/data/a.txt";
        UploadEv "/home/u/b.txt" "/srv/data/b.txt";
        DownloadEv "/srv/data/c.txt" "/home/u/c.txt";
        ExecEv (rmCommand "/srv/data/c.txt")].
Proof. split; vm_compute; reflexivity. Qed.

Lemma SyncDirectory_skipped_zero_witness :
  exists result,
    (SyncDirectory (std := stubStd) stubWorld
       (stubEngine true SyncBoth false false true)
       "/home/u" "/srv/data" []).1.1 = Some result
    /\ SyncResult.SkippedFiles result = 0.
Proof.
  eexists. split.
  - vm_compute. reflexivity.
  - apply (SyncDirectory_skipped_zero (std := stubStd) stubWorld
             (stubEngine true SyncBoth false false true)
             "/home/u" "/srv/data" []).
    vm_compute. reflexivity.
Defined.

Lemma scanRemoteFiles_missing_directory_witness :
  failed
    (execResult missingWorld stubClient [] (findCommand "/srv/data")).2
  = true
  /\ scanRemoteFiles (std := stubStd) missingWorld
       (stubEngine true SyncToRemote false false false) "/srv/data" []
     = ((∅, None), [] ++ [ExecEv (findCommand "/srv/data")]).
Proof.
  split; [reflexivity|].
  apply (scanRemoteFiles_missing_directory (std := stubStd) missingWorld
           (stubEngine true SyncToRemote false false false) "/srv/data" []).
  left. reflexivity.
Defined.

Lemma FIleExists_stat_error_witness :
  FIleExists stubWorld stubClient "/srv/data/missing" []
  = ((false, Some (mkError "file does not exist" true)),
     [] ++ [StatEv "/srv/data/missing"])
  /\ FIleExists stubWorld stubClient "/srv/data/locked" []
     = ((true, None), [] ++ [StatEv "/srv/data/locked"]).
Proof.
  split.
  - apply (FIleExists_stat_error stubWorld stubClient "/srv/data/missing" []
             (mkError "file does not exist" true) eq_refl eq_refl).
    reflexivity.
  - apply (FIleExists_stat_error stubWorld stubClient "/srv/data/locked" []
             (mkError "permission denied" false) eq_refl eq_refl).
    reflexivity.
Defined.

(** * Further properties *)

(** ** The planner, case by case *)

Section PlannerCases.
Context {std : GoStd}.

(** Download-only mode uploads nothing and deletes nothing, whatever the
    delete-extra and force flags are. *)
Theorem from_remote_never_uploads_or_deletes (rse : RemoteSyncEngine.t)
  (localFiles remoteFiles : gmap string FileInfo.t)
  (localBase remoteBase : string) :
  SyncOptions.Direction (RemoteSyncEngine.options rse) = SyncFromRemote ->
  let plan :=
    calculateSyncPlan rse localFiles remoteFiles localBase remoteBase in
  SyncPlan.Upload plan = [] /\ SyncPlan.Delete plan = [].
Proof.
  intros Hdir plan. subst plan. rewrite calculateSyncPlan_queued. simpl.
  unfold queuedUploads, queuedDeletes. rewrite Hdir. simpl.
  by rewrite andb_false_r.
Qed.

(** A direction that is none of the three constants gives an empty plan. *)
Theorem unknown_direction_plan_empty (rse : RemoteSyncEngine.t)
  (localFiles remoteFiles : gmap string FileInfo.t)
  (localBase remoteBase : string) :
  SyncOptions.Direction (RemoteSyncEngine.options rse) <> SyncToRemote ->
  SyncOptions.Direction (RemoteSyncEngine.options rse) <> SyncFromRemote ->
  SyncOptions.Direction (RemoteSyncEngine.options rse) <> SyncBoth ->
  calculateSyncPlan rse localFiles remoteFiles localBase remoteBase
  = SyncPlan.mk [] [] [].
Proof.
  intros H0 H1 H2. rewrite calculateSyncPlan_queued.
  unfold queuedUploads, queuedDownloads, queuedDeletes,
    includesToRemote, includesFromRemote.
  apply Z.eqb_neq in H0, H1, H2. rewrite H0, H1, H2. simpl.
  by rewrite andb_false_r.
Qed.

(** The delete set holds exactly the remote paths that have no local
    record, and only with delete-extra and a direction that includes
    to-remote; each item names the joined remote path and no local path. A
    path of the local inventory is never deleted. *)
Theorem deletes_remote_only_paths (rse : RemoteSyncEngine.t)
  (localFiles remoteFiles : gmap string FileInfo.t)
  (localBase remoteBase : string) :
  let plan :=
    calculateSyncPlan rse localFiles remoteFiles localBase remoteBase in
  let deletes := queuedDeletes rse localFiles remoteFiles in
  SyncPlan.Delete plan = List.map (deleteItem remoteBase) deletes
  /\ (forall relPath remoteFile,
         (relPath, remoteFile) ∈ deletes
         <-> SyncOptions.DeleteExtra (RemoteSyncEngine.options rse) = true
             /\ includesToRemote
                  (SyncOptions.Direction (RemoteSyncEngine.options rse))
                = true
             /\ remoteFiles !! relPath = Some remoteFile
             /\ localFiles !! relPath = None)
  /\ (forall relPath, is_Some (localFiles !! relPath) -> relPath ∉ deletes.*1)
  /\ (forall item,
         item ∈ SyncPlan.Delete plan ->
         SyncItem.LocalPath item = ""
         /\ SyncItem.Action item = "delete_remote"
         /\ exists relPath remoteFile,
              remoteFiles !! relPath = Some remoteFile
              /\ SyncItem.RemotePath item = filepath_Join remoteBase relPath
              /\ SyncItem.Size item = FileInfo.Size remoteFile).
Proof.
  intros plan deletes.
  assert (Hplan : SyncPlan.Delete plan
                  = List.map (deleteItem remoteBase) deletes).
  { subst plan. by rewrite calculateSyncPlan_queued. }
  split; [done|]. split; [apply elem_of_queuedDeletes|]. split.
  - intros relPath [localFile Hl] Hin.
    apply list_elem_of_fmap in Hin as ([p remoteFile] & -> & Hin).
    apply elem_of_queuedDeletes in Hin as (_ & _ & _ & Hnone).
    simpl in Hl. congruence.
  - intros item. rewrite Hplan, list_elem_of_In, in_map_iff.
    intros ([relPath remoteFile] & <- & Hin).
    apply list_elem_of_In, elem_of_queuedDeletes in Hin as (_ & _ & Hr & _).
    split; [done|]. split; [done|]. by exists relPath, remoteFile.
Qed.

(** A file that exists on one side only is transferred whenever the
    direction reaches the other side, whatever the incremental and force
    flags are. *)
Theorem one_sided_files_are_transferred (rse : RemoteSyncEngine.t)
  (localFiles remoteFiles : gmap string FileInfo.t)
  (localBase remoteBase : string) :
  let plan :=
    calculateSyncPlan rse localFiles remoteFiles localBase remoteBase in
  let d := SyncOptions.Direction (RemoteSyncEngine.options rse) in
  (forall relPath localFile,
      d = SyncToRemote \/ d = SyncBoth ->
      localFiles !! relPath = Some localFile ->
      FileInfo.IsDir localFile = false ->
      remoteFiles !! relPath = None ->
      uploadItem localBase remoteBase (relPath, localFile)
        ∈ SyncPlan.Upload plan)
  /\ (forall relPath remoteFile,
         d = SyncFromRemote \/ d = SyncBoth ->
         remoteFiles !! relPath = Some remoteFile ->
         localFiles !! relPath = None ->
         downloadItem localBase remoteBase (relPath, remoteFile)
           ∈ SyncPlan.Download plan).
Proof.
  intros plan d. subst plan. rewrite calculateSyncPlan_queued. simpl.
  split.
  - intros relPath localFile Hd Hl Hdir Hr.
    rewrite list_elem_of_In. apply in_map. apply list_elem_of_In.
    apply elem_of_queuedUploads. split; [|split; [done|split; [done|]]].
    + unfold includesToRemote. fold d. by destruct Hd as [-> | ->].
    + unfold shouldUpload. by rewrite Hr.
  - intros relPath remoteFile Hd Hr Hl.
    rewrite list_elem_of_In. apply in_map. apply list_elem_of_In.
    apply elem_of_queuedDownloads. split; [|split; [done|]].
    + unfold includesFromRemote. fold d. by destruct Hd as [-> | ->].
    + unfold shouldDownload. by rewrite Hl.
Qed.


Lemma shouldDownload_incremental (rse : RemoteSyncEngine.t)
  (localFiles : gmap string FileInfo.t) (relPath : string)
  (remoteFile : FileInfo.t) :
  RemoteConfig.Incremental (RemoteSyncEngine.config rse) = true ->
  shouldDownload rse localFiles relPath remoteFile = true
  <-> localFiles !! relPath = None
      \/ exists localFile,
           localFiles !! relPath = Some localFile
           /\ (FileInfo.ModTime localFile < FileInfo.ModTime remoteFile
               \/ FileInfo.Size remoteFile <> FileInfo.Size localFile).
Proof.
  intros Hinc. unfold shouldDownload, After. rewrite Hinc.
  destruct (localFiles !! relPath) as [localFile|]; [|naive_solver].
  rewrite orb_true_iff, negb_true_iff, Z.ltb_lt, Z.eqb_neq. split.
  - intros H. right. by exists localFile.
  - intros [?|(lf & [= <-] & H)]; done.
Qed.

Lemma includesFromRemote_both (d : SyncDirection) :
  d = SyncFromRemote \/ d = SyncBoth -> includesFromRemote d = true.
Proof. unfold includesFromRemote. by intros [-> | ->]. Qed.

Lemma includesToRemote_both (d : SyncDirection) :
  d = SyncToRemote \/ d = SyncBoth -> includesToRemote d = true.
Proof. unfold includesToRemote. by intros [-> | ->]. Qed.

(** The mirror of the upload rule: in incremental mode with a direction
    that includes from-remote, the download set is made of the items of
    the queued remote records, and a remote record is queued if and only
    if no local record shares its path, or the remote modification time is
    strictly newer, or the sizes differ. *)
Theorem incremental_download_iff (rse : RemoteSyncEngine.t)
  (localFiles remoteFiles : gmap string FileInfo.t)
  (localBase remoteBase : string) :
  RemoteConfig.Incremental (RemoteSyncEngine.config rse) = true ->
  SyncOptions.Direction (RemoteSyncEngine.options rse) = SyncFromRemote
  \/ SyncOptions.Direction (RemoteSyncEngine.options rse) = SyncBoth ->
  let plan :=
    calculateSyncPlan rse localFiles remoteFiles localBase remoteBase in
  let downloads := queuedDownloads rse localFiles remoteFiles in
  SyncPlan.Download plan
  = List.map (downloadItem localBase remoteBase) downloads
  /\ forall relPath remoteFile,
       remoteFiles !! relPath = Some remoteFile ->
       (relPath, remoteFile) ∈ downloads
       <-> localFiles !! relPath = None
           \/ exists localFile,
                localFiles !! relPath = Some localFile
                /\ (FileInfo.ModTime localFile < FileInfo.ModTime remoteFile
                    \/ FileInfo.Size remoteFile <> FileInfo.Size localFile).
Proof.
  intros Hinc Hd plan downloads.
  split; [subst plan; by rewrite calculateSyncPlan_queued|].
  intros relPath remoteFile Hr. subst downloads.
  rewrite elem_of_queuedDownloads, (includesFromRemote_both _ Hd),
    (shouldDownload_incremental rse localFiles relPath remoteFile Hinc).
  tauto.
Qed.

(** In bidirectional incremental mode a file whose sizes differ between
    the two sides is queued in both directions at once: the plan holds its
    upload item and its download item. *)
Theorem size_difference_queues_both_ways (rse : RemoteSyncEngine.t)
  (localFiles remoteFiles : gmap string FileInfo.t)
  (localBase remoteBase : string)
  (relPath : string) (localFile remoteFile : FileInfo.t) :
  RemoteConfig.Incremental (RemoteSyncEngine.config rse) = true ->
  SyncOptions.Direction (RemoteSyncEngine.options rse) = SyncBoth ->
  localFiles !! relPath = Some localFile ->
  remoteFiles !! relPath = Some remoteFile ->
  FileInfo.IsDir localFile = false ->
  FileInfo.Size localFile <> FileInfo.Size remoteFile ->
  let plan :=
    calculateSyncPlan rse localFiles remoteFiles localBase remoteBase in
  uploadItem localBase remoteBase (relPath, localFile) ∈ SyncPlan.Upload plan
  /\ downloadItem localBase remoteBase (relPath, remoteFile)
       ∈ SyncPlan.Download plan.
Proof.
  intros Hinc Hd Hl Hr Hdir Hsize plan. subst plan.
  rewrite calculateSyncPlan_queued. simpl. split.
  - rewrite list_elem_of_In. apply in_map. apply list_elem_of_In.
    apply elem_of_queuedUploads. rewrite Hd. split; [done|].
    split; [done|]. split; [done|].
    apply shouldUpload_incremental; [done|]. right. exists remoteFile. auto.
  - rewrite list_elem_of_In. apply in_map. apply list_elem_of_In.
    apply elem_of_queuedDownloads. rewrite Hd. split; [done|].
    split; [done|]. apply shouldDownload_incremental; [done|].
    right. exists localFile. split; [done|]. right. congruence.
Qed.

(** In bidirectional incremental mode a file of equal size on both sides
    goes the way of the newer copy only: it is queued for upload exactly
    when the local copy is strictly newer and for download exactly when
    the remote copy is strictly newer, so never for both. *)
Theorem newest_wins (rse : RemoteSyncEngine.t)
  (localFiles remoteFiles : gmap string FileInfo.t)
  (localBase remoteBase : string)
  (relPath : string) (localFile remoteFile : FileInfo.t) :
  RemoteConfig.Incremental (RemoteSyncEngine.config rse) = true ->
  SyncOptions.Direction (RemoteSyncEngine.options rse) = SyncBoth ->
  localFiles !! relPath = Some localFile ->
  remoteFiles !! relPath = Some remoteFile ->
  FileInfo.IsDir localFile = false ->
  FileInfo.Size localFile = FileInfo.Size remoteFile ->
  let plan :=
    calculateSyncPlan rse localFiles remoteFiles localBase remoteBase in
  let uploads := queuedUploads rse localFiles remoteFiles in
  let downloads := queuedDownloads rse localFiles remoteFiles in
  SyncPlan.Upload plan = List.map (uploadItem localBase remoteBase) uploads
  /\ SyncPlan.Download plan
     = List.map (downloadItem localBase remoteBase) downloads
  /\ ((relPath, localFile) ∈ uploads
      <-> FileInfo.ModTime remoteFile < FileInfo.ModTime localFile)
  /\ ((relPath, remoteFile) ∈ downloads
      <-> FileInfo.ModTime localFile < FileInfo.ModTime remoteFile)
  /\ ~ ((relPath, localFile) ∈ uploads /\ (relPath, remoteFile) ∈ downloads).
Proof.
  intros Hinc Hd Hl Hr Hdir Hsize plan uploads downloads.
  split; [subst plan; by rewrite calculateSyncPlan_queued|].
  split; [subst plan; by rewrite calculateSyncPlan_queued|].
  subst uploads downloads.
  assert (Hup : (relPath, localFile) ∈ queuedUploads rse localFiles remoteFiles
                <-> FileInfo.ModTime remoteFile < FileInfo.ModTime localFile).
  { rewrite elem_of_queuedUploads, Hd,
      (shouldUpload_incremental rse remoteFiles relPath localFile Hinc).
    unfold needsUpload. split.
    - intros (_ & _ & _ & [Hnone | (rf & Hrf & [Hnew | Hne])]).
      + congruence.
      + by assert (rf = remoteFile) as <- by congruence.
      + assert (rf = remoteFile) as -> by congruence. done.
    - intros Hnew. split; [done|]. split; [done|]. split; [done|].
      right. exists remoteFile. auto. }
  assert (Hdown :
    (relPath, remoteFile) ∈ queuedDownloads rse localFiles remoteFiles
    <-> FileInfo.ModTime localFile < FileInfo.ModTime remoteFile).
  { rewrite elem_of_queuedDownloads, Hd,
      (shouldDownload_incremental rse localFiles relPath remoteFile Hinc).
    split.
    - intros (_ & _ & [Hnone | (lf & Hlf & [Hnew | Hne])]).
      + congruence.
      + by assert (lf = localFile) as <- by congruence.
      + assert (lf = localFile) as -> by congruence. congruence.
    - intros Hnew. split; [done|]. split; [done|].
      right. exists localFile. auto. }
  split; [done|]. split; [done|]. rewrite Hup, Hdown. lia.
Qed.

End PlannerCases.

Lemma from_remote_never_uploads_or_deletes_witness :
  let plan :=
    calculateSyncPlan (std := stubStd)
      (stubEngine false SyncFromRemote false true true)
      localTree remoteTree "/home/u" "/srv/data" in
  SyncPlan.Upload plan = [] /\ SyncPlan.Delete plan = [].
Proof.
  apply (from_remote_never_uploads_or_deletes (std := stubStd)
           (stubEngine false SyncFromRemote false true true)
           localTree remoteTree "/home/u" "/srv/data").
  reflexivity.
Defined.

Lemma unknown_direction_plan_empty_witness :
  calculateSyncPlan (std := stubStd) (stubEngine true 7 false true true)
    localTree remoteTree "/home/u" "/srv/data"
  = SyncPlan.mk [] [] [].
Proof.
  apply (unknown_direction_plan_empty (std := stubStd)
           (stubEngine true 7 false true true)
           localTree remoteTree "/home/u" "/srv/data"); discriminate.
Defined.

Lemma deletes_remote_only_paths_witness :
  "a.txt" ∉ (queuedDeletes (stubEngine true SyncBoth false false true)
               localTree remoteTree).*1.
Proof.
  destruct (deletes_remote_only_paths (std := stubStd)
              (stubEngine true SyncBoth false false true)
              localTree remoteTree "/home/u" "/srv/data")
    as (_ & _ & Hsafe & _).
  apply Hsafe. exists (regular "a.txt" 1 100). reflexivity.
Defined.

Lemma one_sided_files_are_transferred_witness :
  downloadItem (std := stubStd) "/home/u" "/srv/data"
    ("c.txt", regular "c.txt" 5 100)
  ∈ SyncPlan.Download
      (calculateSyncPlan (std := stubStd)
         (stubEngine false SyncFromRemote false false false)
         localTree remoteTree "/home/u" "/srv/data").
Proof.
  destruct (one_sided_files_are_transferred (std := stubStd)
              (stubEngine false SyncFromRemote false false false)
              localTree remoteTree "/home/u" "/srv/data") as [_ Hdown].
  apply Hdown; [left|..]; reflexivity.
Defined.


Lemma incremental_download_iff_witness :
  ("c.txt", regular "c.txt" 5 100)
    ∈ queuedDownloads (stubEngine true SyncBoth false false false)
        localTree remoteTree
  <-> localTree !! "c.txt" = None
      \/ exists localFile,
           localTree !! "c.txt" = Some localFile
           /\ (FileInfo.ModTime localFile < 100
               \/ 5 <> FileInfo.Size localFile).
Proof.
  destruct (incremental_download_iff (std := stubStd)
              (stubEngine true SyncBoth false false false)
              localTree remoteTree "/home/u" "/srv/data" eq_refl
              (or_intror eq_refl)) as [_ Hiff].
  apply (Hiff "c.txt" (regular "c.txt" 5 100)). reflexivity.
Defined.

Lemma size_difference_queues_both_ways_witness :
  let plan :=
    calculateSyncPlan (std := stubStd)
      (stubEngine true SyncBoth false false false)
      localTree remoteTree "/home/u" "/srv/data" in
  uploadItem (std := stubStd) "/home/u" "/srv/data"
    ("a.txt", regular "a.txt" 1 100) ∈ SyncPlan.Upload plan
  /\ downloadItem (std := stubStd) "/home/u" "/srv/data"
       ("a.txt", regular "a.txt" 2 100) ∈ SyncPlan.Download plan.
Proof.
  apply (size_difference_queues_both_ways (std := stubStd)
           (stubEngine true SyncBoth false false false)
           localTree remoteTree "/home/u" "/srv/data" "a.txt"
           (regular "a.txt" 1 100) (regular "a.txt" 2 100));
    try reflexivity.
  discriminate.
Defined.

Lemma newest_wins_witness :
  ("a.txt", regular "a.txt" 10 200)
    ∈ queuedUploads (stubEngine true SyncBoth false false false)
        twoFiles oneFile
  <-> 100 < 200.
Proof.
  destruct (newest_wins (std := stubStd)
              (stubEngine true SyncBoth false false false)
              twoFiles oneFile "/home/u" "/srv/data" "a.txt"
              (regular "a.txt" 10 200) (regular "a.txt" 10 100)
              eq_refl eq_refl eq_refl eq_refl eq_refl eq_refl)
    as (_ & _ & Hup & _).
  exact Hup.
Defined.

(** ** Inventories *)

Section InventoryFacts.
Context {std : GoStd}.
Variable W : World.

Lemma matchesAny_iff (patterns : list string) (path : string) :
  matchesAny patterns path = true
  <-> exists pattern,
        pattern ∈ patterns
        /\ (filepath_Match pattern (filepath_Base path) = true
            \/ Contains path pattern = true).
Proof.
  induction patterns as [|p patterns IH]; simpl.
  - split; [done|]. intros (pattern & Hin & _). by apply elem_of_nil in Hin.
  - destruct (filepath_Match p (filepath_Base path)) eqn:Hm.
    { split; [|done]. intros _. exists p. split; [constructor|by left]. }
    destruct (Contains path p) eqn:Hc.
    { split; [|done]. intros _. exists p. split; [constructor|by right]. }
    rewrite IH. split.
    + intros (pattern & Hin & H). exists pattern. split; [|done].
      by constructor.
    + intros (pattern & Hin & H). apply elem_of_cons in Hin as [-> | Hin].
      * destruct H; congruence.
      * by exists pattern.
Qed.

(** A path is excluded exactly when some pattern of the exclude list
    matches its base name as a glob or occurs in the path as a
    substring. *)
Theorem shouldExclude_iff (rse : RemoteSyncEngine.t) (path : string) :
  shouldExclude rse path = true
  <-> exists pattern,
        pattern ∈ RemoteConfig.ExcludeList (RemoteSyncEngine.config rse)
        /\ (filepath_Match pattern (filepath_Base path) = true
            \/ Contains path pattern = true).
Proof. apply matchesAny_iff. Qed.

Lemma Contains_empty (s : string) : Contains s "" = true.
Proof. by destruct s. Qed.

Lemma wellKeyed_empty (rse : RemoteSyncEngine.t) : wellKeyed rse ∅.
Proof. intros relPath file Hl. by rewrite lookup_empty in Hl. Qed.

Lemma wellKeyed_insert (rse : RemoteSyncEngine.t)
  (files : gmap string FileInfo.t) (relPath : string) (file : FileInfo.t) :
  wellKeyed rse files ->
  FileInfo.Path file = relPath ->
  FileInfo.IsDir file = false ->
  shouldExclude rse relPath = false ->
  wellKeyed rse (<[relPath := file]> files).
Proof.
  intros Hfiles Hp Hd He k f. rewrite lookup_insert.
  case_decide as Hk.
  - subst k. by intros [= <-].
  - apply Hfiles.
Qed.

Lemma parseLine_wellKeyed (rse : RemoteSyncEngine.t)
  (files : gmap string FileInfo.t) (line : string) :
  wellKeyed rse files -> wellKeyed rse (parseLine rse files line).
Proof.
  intros Hfiles. unfold parseLine.
  destruct (String.eqb line ""); [done|].
  destruct (Split line tab) as [|relPath [|size [|stamp [|more parts]]]];
    try done.
  destruct (shouldExclude rse relPath) eqn:He; [done|].
  by apply wellKeyed_insert.
Qed.

Lemma fold_wellKeyed {A : Type} (rse : RemoteSyncEngine.t)
  (step : gmap string FileInfo.t -> A -> gmap string FileInfo.t)
  (xs : list A) (files : gmap string FileInfo.t) :
  (forall files x, wellKeyed rse files -> wellKeyed rse (step files x)) ->
  wellKeyed rse files -> wellKeyed rse (fold_left step xs files).
Proof.
  intros Hstep. revert files.
  induction xs as [|x xs IH]; intros files Hfiles; simpl; [done|].
  apply IH. by apply Hstep.
Qed.

Lemma listedFiles_wellKeyed (rse : RemoteSyncEngine.t)
  (listing : string * option error) :
  wellKeyed rse (listedFiles rse listing).
Proof.
  unfold listedFiles. destruct listing.2; [apply wellKeyed_empty|].
  apply fold_wellKeyed; [|apply wellKeyed_empty].
  intros files line. apply parseLine_wellKeyed.
Qed.

Lemma scanLocalFiles_wellKeyed (rse : RemoteSyncEngine.t)
  (localPath : string) (files : gmap string FileInfo.t) :
  scanLocalFiles W rse localPath = inl files -> wellKeyed rse files.
Proof.
  unfold scanLocalFiles.
  destruct (w_scan W localPath localPath) as [sourceFiles|err]; [|done].
  intros [= <-]. apply fold_wellKeyed; [|apply wellKeyed_empty].
  intros files pyFile Hfiles.
  destruct (filepath_Rel localPath (FileMetadata.Path pyFile)); [|done].
  destruct (shouldExclude rse s) eqn:He; [done|].
  by apply wellKeyed_insert.
Qed.

(** C4: in incremental mode with a direction that includes to-remote,
    for every record of a local inventory that the collector returns, the
    planner queues an upload for its relative path if and only if no
    remote record shares that path, or the local modification time is
    strictly newer than the remote's, or the sizes differ; the upload set
    is made of the items of the queued records, and a file present on
    both sides with equal size and an older-or-equal local time stamp is
    not queued. *)
Theorem collected_upload_iff (rse : RemoteSyncEngine.t)
  (localPath : string) (localFiles remoteFiles : gmap string FileInfo.t)
  (localBase remoteBase : string) :
  scanLocalFiles W rse localPath = inl localFiles ->
  RemoteConfig.Incremental (RemoteSyncEngine.config rse) = true ->
  SyncOptions.Direction (RemoteSyncEngine.options rse) = SyncToRemote
  \/ SyncOptions.Direction (RemoteSyncEngine.options rse) = SyncBoth ->
  let plan :=
    calculateSyncPlan rse localFiles remoteFiles localBase remoteBase in
  let queued := queuedUploads rse localFiles remoteFiles in
  SyncPlan.Upload plan = List.map (uploadItem localBase remoteBase) queued
  /\ (forall relPath localFile,
         (relPath, localFile) ∈ queued ->
         localFiles !! relPath = Some localFile)
  /\ (forall relPath localFile,
         localFiles !! relPath = Some localFile ->
         (relPath, localFile) ∈ queued
         <-> needsUpload remoteFiles relPath localFile)
  /\ (forall relPath localFile remoteFile,
         localFiles !! relPath = Some localFile ->
         remoteFiles !! relPath = Some remoteFile ->
         FileInfo.Size localFile = FileInfo.Size remoteFile ->
         FileInfo.ModTime localFile <= FileInfo.ModTime remoteFile ->
         (relPath, localFile) ∉ queued).
Proof.
  intros Hscan Hinc Hdir plan queued.
  apply scanLocalFiles_wellKeyed in Hscan.
  assert (Hq : forall relPath localFile,
             localFiles !! relPath = Some localFile ->
             (relPath, localFile) ∈ queued
             <-> needsUpload remoteFiles relPath localFile).
  { intros relPath localFile Hl. subst queued.
    destruct (Hscan relPath localFile Hl) as (_ & Hfile & _).
    rewrite elem_of_queuedUploads, (includesToRemote_both _ Hdir),
      (shouldUpload_incremental rse remoteFiles relPath localFile Hinc).
    tauto. }
  split; [subst plan; by rewrite calculateSyncPlan_queued|].
  split; [|split; [done|]].
  - intros relPath localFile Hin. subst queued.
    by apply elem_of_queuedUploads in Hin as (_ & Hl & _).
  - intros relPath localFile remoteFile Hl Hr Hsize Htime Hin.
    apply (Hq relPath localFile Hl) in Hin
      as [Hnone | (rf & Hrf & Hnewer)].
    + congruence.
    + assert (rf = remoteFile) as -> by congruence. lia.
Qed.

Lemma wellKeyed_all_excluded (rse : RemoteSyncEngine.t)
  (files : gmap string FileInfo.t) :
  (forall path, shouldExclude rse path = true) ->
  wellKeyed rse files -> files = ∅.
Proof.
  intros Hall Hfiles. apply map_empty. intros relPath.
  destruct (files !! relPath) as [file|] eqn:Hl; [|done].
  destruct (Hfiles relPath file Hl) as (_ & _ & He).
  by rewrite Hall in He.
Qed.

(** Every record of the remote inventory sits under its own relative
    path, is not a directory, and has a path that the exclude list lets
    through. *)
Theorem remote_inventory_records (rse : RemoteSyncEngine.t)
  (remotePath : string) (t : Trace) (relPath : string) (file : FileInfo.t) :
  (scanRemoteFiles W rse remotePath t).1.1 !! relPath = Some file ->
  FileInfo.Path file = relPath
  /\ FileInfo.IsDir file = false
  /\ shouldExclude rse relPath = false.
Proof.
  rewrite scanRemoteFiles_eq. simpl. apply listedFiles_wellKeyed.
Qed.

(** Every record of the local inventory sits under its own relative
    path, is not a directory, and has a path that the exclude list lets
    through: the guard of the planner against directories never fires on
    an inventory that the collector has made. *)
Theorem local_inventory_records (rse : RemoteSyncEngine.t)
  (localPath : string) (files : gmap string FileInfo.t)
  (relPath : string) (file : FileInfo.t) :
  scanLocalFiles W rse localPath = inl files ->
  files !! relPath = Some file ->
  FileInfo.Path file = relPath
  /\ FileInfo.IsDir file = false
  /\ shouldExclude rse relPath = false.
Proof.
  intros Hscan Hl. apply scanLocalFiles_wellKeyed in Hscan.
  exact (Hscan relPath file Hl).
Qed.

(** An empty pattern in the exclude list excludes every path, so that
    both collectors return an empty inventory. *)
Theorem empty_pattern_excludes_all (rse : RemoteSyncEngine.t)
  (localPath remotePath : string) (t : Trace) :
  "" ∈ RemoteConfig.ExcludeList (RemoteSyncEngine.config rse) ->
  (forall path, shouldExclude rse path = true)
  /\ (scanRemoteFiles W rse remotePath t).1.1 = ∅
  /\ (forall files, scanLocalFiles W rse localPath = inl files -> files = ∅).
Proof.
  intros Hin.
  assert (Hall : forall path, shouldExclude rse path = true).
  { intros path. apply matchesAny_iff. exists "". split; [done|].
    right. apply Contains_empty. }
  split; [done|]. split.
  - rewrite scanRemoteFiles_eq. simpl.
    apply (wellKeyed_all_excluded rse); [done|]. apply listedFiles_wellKeyed.
  - intros files Hscan. apply (wellKeyed_all_excluded rse); [done|].
    by apply scanLocalFiles_wellKeyed in Hscan.
Qed.

Lemma Split_length (s : string) (sep : ascii) :
  length (Split s sep) = S (occurrences sep s).
Proof.
  induction s as [|c s IH]; simpl; [done|].
  destruct (Ascii.eqb c sep); simpl; [by rewrite IH|].
  destruct (Split s sep); simpl in *; done.
Qed.

Lemma Split_lacks (a : string) (sep : ascii) :
  lacks sep a = true -> Split a sep = [a].
Proof.
  induction a as [|c a IH]; simpl; [done|].
  destruct (Ascii.eqb c sep); simpl; [done|]. intros Ha. by rewrite IH.
Qed.

Lemma Split_field (a b : string) (sep : ascii) :
  lacks sep a = true ->
  Split (a +:+ String sep b) sep = a :: Split b sep.
Proof.
  induction a as [|c a IH]; simpl.
  - intros _. by rewrite Ascii.eqb_refl.
  - destruct (Ascii.eqb c sep); simpl; [done|]. intros Ha. by rewrite IH.
Qed.

(** A line of the listing that holds its three fields adds the record of
    its path, with the size and the time stamp read from the second and
    third field, unless the path is excluded. *)
Theorem parseLine_listingLine (rse : RemoteSyncEngine.t)
  (files : gmap string FileInfo.t) (relPath size stamp : string) :
  lacks tab relPath = true ->
  lacks tab size = true ->
  lacks tab stamp = true ->
  parseLine rse files (listingLine relPath size stamp)
  = if shouldExclude rse relPath then files
    else <[relPath :=
             FileInfo.mk relPath (Sscanf_d size)
               (time_Unix (Sscanf_f stamp)) false ""]> files.
Proof.
  intros Hp Hs Hm. unfold parseLine, listingLine.
  replace (String.eqb (relPath +:+ String tab (size +:+ String tab stamp)) "")
    with false by (by destruct relPath).
  by rewrite (Split_field relPath _ tab Hp), (Split_field size _ tab Hs),
    (Split_lacks stamp tab Hm).
Qed.

(** A line that does not hold exactly two tabs adds nothing: a file whose
    name contains a tab is left out of the remote inventory. *)
Theorem parseLine_malformed (rse : RemoteSyncEngine.t)
  (files : gmap string FileInfo.t) (line : string) :
  occurrences tab line <> 2%nat ->
  parseLine rse files line = files.
Proof.
  intros Hn. unfold parseLine. destruct (String.eqb line ""); [done|].
  pose proof (Split_length line tab) as Hlen.
  destruct (Split line tab) as [|a [|b [|c [|d parts]]]]; try done.
  simpl in Hlen. lia.
Qed.

End InventoryFacts.

Lemma remote_inventory_records_witness :
  FileInfo.Path (regular "c.txt" 5 100000000000) = "c.txt"
  /\ FileInfo.IsDir (regular "c.txt" 5 100000000000) = false
  /\ shouldExclude (std := stubStd)
       (stubEngine true SyncBoth false false false) "c.txt" = false.
Proof.
  apply (remote_inventory_records (std := stubStd) stubWorld
           (stubEngine true SyncBoth false false false) "/srv/data" []
           "c.txt" (regular "c.txt" 5 100000000000)).
  vm_compute. reflexivity.
Defined.

Lemma local_inventory_records_witness :
  exists file,
    FileInfo.Path file = "b.txt" /\ FileInfo.IsDir file = false
    /\ shouldExclude (std := stubStd)
         (stubEngine true SyncBoth false false false) "b.txt" = false.
Proof.
  eexists.
  eapply (local_inventory_records (std := stubStd) stubWorld
            (stubEngine true SyncBoth false false false) "/home/u" _
            "b.txt" _).
  - vm_compute. reflexivity.
  - vm_compute. reflexivity.
Defined.

Lemma empty_pattern_excludes_all_witness :
  (scanRemoteFiles (std := stubStd) stubWorld excludeAllEngine "/srv/data"
     []).1.1 = ∅.
Proof.
  destruct (empty_pattern_excludes_all (std := stubStd) stubWorld
              excludeAllEngine "/home/u" "/srv/data" [])
    as (_ & Hremote & _).
  - vm_compute. repeat constructor.
  - exact Hremote.
Defined.

Lemma parseLine_listingLine_witness :
  parseLine (std := stubStd) (stubEngine true SyncBoth false false false)
    ∅ (listingLine "c.txt" "5" "100")
  = {[ "c.txt" := regular "c.txt" 5 100000000000 ]}.
Proof.
  rewrite (parseLine_listingLine (std := stubStd)
             (stubEngine true SyncBoth false false false) ∅
             "c.txt" "5" "100" eq_refl eq_refl eq_refl).
  vm_compute. reflexivity.
Defined.

Lemma parseLine_malformed_witness :
  parseLine (std := stubStd) (stubEngine true SyncBoth false false false)
    ∅ (listingLine ("odd" +:+ String tab "name") "5" "100")
  = ∅.
Proof.
  apply (parseLine_malformed (std := stubStd)).
  vm_compute. discriminate.
Defined.

Lemma collected_upload_iff_witness :
  exists localFiles,
    scanLocalFiles (std := stubStd) stubWorld
      (stubEngine true SyncToRemote false false false) "/home/u"
    = inl localFiles
    /\ forall relPath localFile,
         localFiles !! relPath = Some localFile ->
         (relPath, localFile)
           ∈ queuedUploads (stubEngine true SyncToRemote false false false)
               localFiles remoteTree
         <-> needsUpload remoteTree relPath localFile.
Proof.
  eexists. split; [vm_compute; reflexivity|].
  destruct (collected_upload_iff (std := stubStd) stubWorld
              (stubEngine true SyncToRemote false false false) "/home/u"
              _ remoteTree "/home/u" "/srv/data"
              eq_refl eq_refl (or_introl eq_refl)) as (_ & _ & Hiff & _).
  exact Hiff.
Defined.

(** ** Counting *)

Section CountingFacts.
Context {std : GoStd}.
Variable W : World.

Lemma tallied_refl (result : SyncResult.t) : tallied 0 result result.
Proof. exists 0%nat, 0%nat, 0%nat, 0%nat. simpl. repeat split; lia. Qed.

Lemma tallied_trans (n m : nat) (r0 r1 r2 : SyncResult.t) :
  tallied n r0 r1 -> tallied m r1 r2 -> tallied (n + m) r0 r2.
Proof.
  intros (u1 & d1 & x1 & e1 & Hn & Hu1 & Hd1 & Hx1 & He1 & Hm1 & Ht1)
         (u2 & d2 & x2 & e2 & Hm & Hu2 & Hd2 & Hx2 & He2 & Hm2 & Ht2).
  exists (u2 + u1)%nat, (d2 + d1)%nat, (x2 + x1)%nat, (e2 + e1)%nat.
  rewrite !Nat.iter_add, <- Hu1, <- Hd1, <- Hx1, <- He1.
  repeat split; first [done | lia | congruence].
Qed.

Lemma tallied_error (msg : string) (result : SyncResult.t) :
  tallied 1 result (addError msg result).
Proof.
  exists 0%nat, 0%nat, 0%nat, 1%nat. simpl. rewrite length_app. simpl.
  repeat split; lia.
Qed.

Lemma uploadOne_tallied (rse : RemoteSyncEngine.t) (bar : bool)
  (result : SyncResult.t) (item : SyncItem.t) (t : Trace) :
  tallied 1 result (uploadOne W rse bar result item t).1.
Proof.
  unfold uploadOne, bind, when, UploadFile, emit, ret.
  destruct bar, (SyncOptions.Verbose _); simpl;
    (destruct (uploadResult _ _ _ _ _); simpl; [apply tallied_error|]);
    exists 1%nat, 0%nat, 0%nat, 0%nat; simpl; repeat split; lia.
Qed.

Lemma downloadOne_tallied (rse : RemoteSyncEngine.t) (bar : bool)
  (result : SyncResult.t) (item : SyncItem.t) (t : Trace) :
  tallied 1 result (downloadOne W rse bar result item t).1.
Proof.
  unfold downloadOne, bind, when, DownloadFile, emit, ret.
  destruct bar, (SyncOptions.Verbose _); simpl;
    (destruct (downloadResult _ _ _ _ _); simpl; [apply tallied_error|]);
    exists 0%nat, 1%nat, 0%nat, 0%nat; simpl; repeat split; lia.
Qed.

Lemma deleteOne_tallied (rse : RemoteSyncEngine.t) (bar : bool)
  (result : SyncResult.t) (item : SyncItem.t) (t : Trace) :
  tallied 1 result (deleteOne W rse bar result item t).1.
Proof.
  unfold deleteOne, bind, when, ExecuteCommand, emit, ret.
  destruct bar, (SyncOptions.Verbose _); simpl;
    (destruct (execResult _ _ _ _) as [output [err|]]; simpl;
     [apply tallied_error|]);
    exists 0%nat, 0%nat, 1%nat, 0%nat; simpl; repeat split; lia.
Qed.

Lemma forEach_tallied
  (one : SyncResult.t -> SyncItem.t -> State Trace SyncResult.t) :
  (forall result item t, tallied 1 result (one result item t).1) ->
  forall items result t,
    tallied (length items) result (forEach items one result t).1.
Proof.
  intros Hone items. induction items as [|item items IH]; intros result t.
  - apply tallied_refl.
  - simpl. unfold bind. specialize (Hone result item t).
    destruct (one result item t) as [r1 t1]. simpl in Hone.
    apply (tallied_trans 1 (length items) result r1); [done|apply IH].
Qed.

Lemma executeSyncPlan_tallied (rse : RemoteSyncEngine.t)
  (plan : SyncPlan.t) (result : SyncResult.t) (t : Trace) :
  tallied
    (length (SyncPlan.Upload plan) + length (SyncPlan.Download plan)
     + length (SyncPlan.Delete plan))
    result (executeSyncPlan W rse plan result t).1.1.
Proof.
  unfold executeSyncPlan, bind.
  destruct (when _ _ t) as [[] t0].
  match goal with
  | |- context [forEach (SyncPlan.Upload plan) ?one result t0] =>
      pose proof (forEach_tallied one (uploadOne_tallied rse _)
                    (SyncPlan.Upload plan) result t0) as H1;
      destruct (forEach (SyncPlan.Upload plan) one result t0) as [r1 t1]
  end.
  match goal with
  | |- context [forEach (SyncPlan.Download plan) ?one r1 t1] =>
      pose proof (forEach_tallied one (downloadOne_tallied rse _)
                    (SyncPlan.Download plan) r1 t1) as H2;
      destruct (forEach (SyncPlan.Download plan) one r1 t1) as [r2 t2]
  end.
  match goal with
  | |- context [forEach (SyncPlan.Delete plan) ?one r2 t2] =>
      pose proof (forEach_tallied one (deleteOne_tallied rse _)
                    (SyncPlan.Delete plan) r2 t2) as H3;
      destruct (forEach (SyncPlan.Delete plan) one r2 t2) as [r3 t3]
  end.
  simpl in *. destruct (when _ _ t3) as [[] t4]. simpl.
  apply (tallied_trans _ _ result r2); [|done].
  by apply (tallied_trans _ _ result r1).
Qed.

Lemma iter_incr (k : nat) :
  Z.of_nat k < 2 ^ 63 -> Nat.iter k incr 0 = Z.of_nat k.
Proof.
  induction k as [|k IH]; intros Hk; [done|].
  simpl. rewrite IH by lia. unfold incr, wrap64.
  rewrite Z.mod_small by lia. lia.
Qed.

(** The result of a run, when one is returned: [TotalFiles] is the size of
    the plan, and without the dry-run option it is the accumulator of the
    executor. *)
Lemma SyncDirectory_result (rse : RemoteSyncEngine.t)
  (localPath remotePath : string) (t : Trace) (result : SyncResult.t) :
  (SyncDirectory W rse localPath remotePath t).1.1 = Some result ->
  exists localFiles,
    scanLocalFiles W rse localPath = inl localFiles
    /\ SyncResult.TotalFiles result
       = plannedTotal W rse localFiles localPath remotePath t
    /\ (SyncOptions.DryRun (RemoteSyncEngine.options rse) = false ->
        exists n : nat,
          Z.of_nat n = SyncResult.TotalFiles result
          /\ tallied n (SyncResult.mk (SyncResult.TotalFiles result)
                          0 0 0 0 0 0 0 []) result).
Proof.
  rewrite SyncDirectory_eq.
  destruct (IsConnected _); simpl; [|done].
  destruct (execResult W _ t _).2; [done|].
  destruct (scanLocalFiles W rse localPath) as [localFiles|err]; [|done].
  simpl. intros Hres. exists localFiles. split; [done|].
  destruct (SyncOptions.DryRun _).
  - injection Hres as <-. split; [reflexivity|done].
  - match type of Hres with
    | context [executeSyncPlan W rse ?plan ?r0 ?t3] =>
        pose proof (executeSyncPlan_tallied rse plan r0 t3) as Htally;
        destruct (executeSyncPlan_accounted W rse plan r0 t3)
          as (evs & r & Hrun & _);
        rewrite Hrun in Hres, Htally
    end.
    simpl in Hres, Htally. injection Hres as <-.
    destruct Htally as (u & d & x & e & Hn & Hu & Hd & Hx & He & Hm & Ht).
    simpl in Hu, Hd, Hx, He, Hm, Ht.
    split; [simpl; rewrite Ht; reflexivity|]. intros _.
    exists (u + d + x + e)%nat. split.
    + simpl. rewrite Ht, Hn. unfold len. lia.
    + exists u, d, x, e. simpl. repeat split; done.
Qed.

(** Without the dry-run option every item of the plan is counted exactly
    once: the uploaded, downloaded, deleted and failed files of the result
    add up to [TotalFiles], and [Errors] holds one message for each failed
    file. *)
Theorem every_item_is_counted (rse : RemoteSyncEngine.t)
  (localPath remotePath : string) (t : Trace) (result : SyncResult.t) :
  SyncOptions.DryRun (RemoteSyncEngine.options rse) = false ->
  (SyncDirectory W rse localPath remotePath t).1.1 = Some result ->
  SyncResult.TotalFiles result < 2 ^ 63 ->
  SyncResult.UploadedFiles result + SyncResult.DownloadFiles result
  + SyncResult.DeletedFiles result + SyncResult.ErrorFiles result
  = SyncResult.TotalFiles result
  /\ len (SyncResult.Errors result) = SyncResult.ErrorFiles result
  /\ 0 <= SyncResult.UploadedFiles result
  /\ 0 <= SyncResult.DownloadFiles result
  /\ 0 <= SyncResult.DeletedFiles result
  /\ 0 <= SyncResult.ErrorFiles result.
Proof.
  intros Hdry Hres Hsmall.
  destruct (SyncDirectory_result rse localPath remotePath t result Hres)
    as (localFiles & _ & _ & Htally).
  destruct (Htally Hdry)
    as (n & Hn & u & d & x & e & Hsum & Hu & Hd & Hx & He & Hm & _).
  simpl in Hu, Hd, Hx, He, Hm.
  rewrite iter_incr in Hu, Hd, Hx, He by lia.
  unfold len. rewrite Hu, Hd, Hx, He, Hm. lia.
Qed.

(** The dry run announces the size of the plan that the run without the
    option then executes: run from the same state, both return the same
    [TotalFiles]. *)
Theorem dry_run_predicts_total (rse : RemoteSyncEngine.t)
  (localPath remotePath : string) (t : Trace) (dry wet : SyncResult.t) :
  (SyncDirectory W (withDryRun true rse) localPath remotePath t).1.1
  = Some dry ->
  (SyncDirectory W (withDryRun false rse) localPath remotePath t).1.1
  = Some wet ->
  SyncResult.TotalFiles dry = SyncResult.TotalFiles wet.
Proof.
  intros Hdry Hwet.
  apply SyncDirectory_result in Hdry as (l1 & Hs1 & Ht1 & _).
  apply SyncDirectory_result in Hwet as (l2 & Hs2 & Ht2 & _).
  change (scanLocalFiles W (withDryRun true rse) localPath)
    with (scanLocalFiles W rse localPath) in Hs1.
  change (scanLocalFiles W (withDryRun false rse) localPath)
    with (scanLocalFiles W rse localPath) in Hs2.
  assert (l1 = l2) as -> by congruence.
  rewrite Ht1, Ht2. reflexivity.
Qed.

(** A run returns a result exactly when it returns no error. *)
Theorem SyncDirectory_result_iff_no_error (rse : RemoteSyncEngine.t)
  (localPath remotePath : string) (t : Trace) :
  let run := SyncDirectory W rse localPath remotePath t in
  is_Some run.1.1 <-> run.1.2 = None.
Proof.
  intros run. subst run. rewrite SyncDirectory_eq.
  destruct (IsConnected _); simpl.
  2:{ split; [by intros [? [=]]|done]. }
  destruct (execResult W _ t _).2; simpl.
  { split; [by intros [? [=]]|done]. }
  destruct (scanLocalFiles W rse localPath) as [localFiles|err]; simpl.
  2:{ split; [by intros [? [=]]|done]. }
  destruct (SyncOptions.DryRun _); simpl; [by split|].
  match goal with
  | |- context [executeSyncPlan W rse ?plan ?r0 ?t3] =>
      destruct (executeSyncPlan_accounted W rse plan r0 t3)
        as (evs & r & Hrun & _);
      rewrite Hrun
  end.
  simpl. by split.
Qed.

(** A run that returns an error has transferred and deleted nothing: the
    only call of the transport client that it can have made is the
    creation of the remote directory. *)
Theorem SyncDirectory_error_is_early (rse : RemoteSyncEngine.t)
  (localPath remotePath : string) (t : Trace) (err : error) :
  let run := SyncDirectory W rse localPath remotePath t in
  run.1.2 = Some err ->
  run.1.1 = None
  /\ exists evs,
       run.2 = t ++ evs
       /\ (transportCalls evs = []
           \/ transportCalls evs
              = [ExecEv (mkdirCommand (absoluteRemote rse remotePath))]).
Proof.
  intros run. subst run. rewrite SyncDirectory_eq.
  destruct (IsConnected _); simpl.
  2:{ intros _. split; [done|]. exists []. rewrite app_nil_r. auto. }
  destruct (execResult W _ t _).2; simpl.
  { intros _. split; [done|]. eexists. split; [reflexivity|]. by right. }
  destruct (scanLocalFiles W rse localPath) as [localFiles|e]; simpl.
  2:{ intros _. split; [done|]. eexists. split; [reflexivity|]. by right. }
  destruct (SyncOptions.DryRun _); simpl; [done|].
  match goal with
  | |- context [executeSyncPlan W rse ?plan ?r0 ?t3] =>
      destruct (executeSyncPlan_accounted W rse plan r0 t3)
        as (evs & r & Hrun & _);
      rewrite Hrun
  end.
  done.
Qed.

End CountingFacts.

Lemma every_item_is_counted_witness :
  exists result,
    (SyncDirectory (std := stubStd) stubWorld
       (stubEngine true SyncBoth false false true)
       "/home/u" "/srv/data" []).1.1 = Some result
    /\ SyncResult.UploadedFiles result + SyncResult.DownloadFiles result
       + SyncResult.DeletedFiles result + SyncResult.ErrorFiles result
       = SyncResult.TotalFiles result.
Proof.
  eexists. split.
  - vm_compute. reflexivity.
  - eapply (every_item_is_counted (std := stubStd) stubWorld
              (stubEngine true SyncBoth false false true)
              "/home/u" "/srv/data" []).
    + reflexivity.
    + vm_compute. reflexivity.
    + vm_compute. reflexivity.
Defined.

Lemma dry_run_predicts_total_witness :
  exists dry wet,
    (SyncDirectory (std := stubStd) stubWorld
       (withDryRun true (stubEngine true SyncBoth false false true))
       "/home/u" "/srv/data" []).1.1 = Some dry
    /\ (SyncDirectory (std := stubStd) stubWorld
          (withDryRun false (stubEngine true SyncBoth false false true))
          "/home/u" "/srv/data" []).1.1 = Some wet
    /\ SyncResult.TotalFiles dry = SyncResult.TotalFiles wet.
Proof.
  eexists. eexists. split; [vm_compute; reflexivity|].
  split; [vm_compute; reflexivity|].
  eapply (dry_run_predicts_total (std := stubStd) stubWorld
            (stubEngine true SyncBoth false false true)
            "/home/u" "/srv/data" []); vm_compute; reflexivity.
Defined.

Lemma SyncDirectory_error_is_early_witness :
  (SyncDirectory (std := stubStd) stubWorld offlineEngine
     "/home/u" "/srv/data" []).1.1 = None.
Proof.
  destruct (SyncDirectory_error_is_early (std := stubStd) stubWorld
              offlineEngine "/home/u" "/srv/data" []
              (errorString "SSH未连接") eq_refl) as [Hnil _].
  exact Hnil.
Defined.

(** ** Connecting and closing *)

Section ConnectFacts.
Context {std : GoStd} {xssh : GoSSH}.
Variable os : OS.
Variable net : Network.

(** [Connect] on a client that is not connected, step by step. *)
Lemma Connect_eq (c : SSHClient.t) (fs : FS) :
  SSHClient.connected c = false ->
  let addr :=
    SSHConfig.Host (SSHClient.config c)
      +:+ itoa (SSHConfig.Port (SSHClient.config c)) in
  Connect os net c fs
  = match createHostKeyCallback os c fs with
    | (inr err, fs1) => ((Some (Errorf "Errorf: " err), c), fs1)
    | (inl callback, fs1) =>
        match addAuthMethods os c with
        | inr err => ((Some (Errorf "Errorf: " err), c), fs1)
        | inl auth =>
            match ssh_Dial net addr callback auth fs1 with
            | (Some err, fs2) => ((Some (Errorf "ssh Errorf: " err), c), fs2)
            | (None, fs2) =>
                match net_sftp net addr with
                | Some err =>
                    ((Some (Errorf "Errorf: " err),
                      setConnected c (Some addr) None false), fs2)
                | None =>
                    ((None, setConnected c (Some addr) (Some addr) true), fs2)
                end
            end
        end
    end.
Proof.
  intros Hc addr. unfold Connect. rewrite Hc. unfold bind at 1.
  destruct (createHostKeyCallback os c fs) as [[callback|err] fs1]; [|done].
  destruct (addAuthMethods os c) as [auth|err]; [|done].
  fold addr. unfold bind.
  destruct (ssh_Dial net addr callback auth fs1) as [[err|] fs2]; [done|].
  by destruct (net_sftp net addr).
Qed.

(** [Connect] returns nil exactly when it leaves the client connected;
    the client then holds both handles, and connecting it again does
    nothing. *)
Theorem Connect_connected_iff (c : SSHClient.t) (fs : FS) :
  SSHClient.connected c = false ->
  let run := Connect os net c fs in
  (run.1.1 = None <-> SSHClient.connected run.1.2 = true)
  /\ (run.1.1 = None ->
      is_Some (SSHClient.sshClient run.1.2)
      /\ is_Some (SSHClient.sftpClient run.1.2)
      /\ Connect os net run.1.2 run.2 = ((None, run.1.2), run.2)).
Proof.
  intros Hc run. subst run. rewrite (Connect_eq c fs Hc).
  destruct (createHostKeyCallback os c fs) as [[callback|err] fs1]; simpl.
  2:{ rewrite Hc. split; [split; done|done]. }
  destruct (addAuthMethods os c) as [auth|err]; simpl.
  2:{ rewrite Hc. split; [split; done|done]. }
  destruct (ssh_Dial net _ callback auth fs1) as [[err|] fs2]; simpl.
  { rewrite Hc. split; [split; done|done]. }
  destruct (net_sftp net _); simpl.
  { split; [split; done|done]. }
  split; [split; done|]. intros _. split; [by eexists|].
  split; [by eexists|]. reflexivity.
Qed.

(** Without strict host checking [Connect] reads and writes no file, and
    succeeds on whatever key the host presents as soon as the host is
    reached, accepts a credential and opens the file-transfer channel. *)
Theorem Connect_without_strict_check (c : SSHClient.t) (fs : FS) :
  SSHConfig.StrictHostCheck (SSHClient.config c) = false ->
  let addr :=
    SSHConfig.Host (SSHClient.config c)
      +:+ itoa (SSHConfig.Port (SSHClient.config c)) in
  (Connect os net c fs).2 = fs
  /\ (forall auth remote key,
         SSHClient.connected c = false ->
         addAuthMethods os c = inl auth ->
         net_hostKey net addr = inl (remote, key) ->
         net_auth net auth = None ->
         net_sftp net addr = None ->
         Connect os net c fs
         = ((None, setConnected c (Some addr) (Some addr) true), fs)).
Proof.
  intros Hstrict addr.
  assert (Hcb : createHostKeyCallback os c fs
                = (inl InsecureIgnoreHostKey, fs)).
  { unfold createHostKeyCallback. by rewrite Hstrict. }
  split.
  - destruct (SSHClient.connected c) eqn:Hc.
    { unfold Connect. by rewrite Hc. }
    rewrite (Connect_eq c fs Hc), Hcb.
    destruct (addAuthMethods os c) as [auth|err]; [|done].
    unfold ssh_Dial. fold addr.
    destruct (net_hostKey net addr) as [[remote key]|err]; simpl; [|done].
    destruct (net_auth net auth); [done|]. by destruct (net_sftp net addr).
  - intros auth remote key Hc Hauth Hkey Haccept Hsftp.
    rewrite (Connect_eq c fs Hc), Hcb, Hauth. unfold ssh_Dial. fold addr.
    rewrite Hkey. simpl. by rewrite Haccept, Hsftp.
Qed.

(** With strict host checking, a key that the check of the known-hosts
    file accepts lets [Connect] succeed, and the store is left as it
    was. *)
Theorem Connect_accepts_known_key (c : SSHClient.t) (fs : FS)
  (knownHostsFile content : string) (check : KnownHostsCheck)
  (auth : list AuthMethod) (remote : string) (key : PublicKey) :
  let addr :=
    SSHConfig.Host (SSHClient.config c)
      +:+ itoa (SSHConfig.Port (SSHClient.config c)) in
  SSHClient.connected c = false ->
  SSHConfig.StrictHostCheck (SSHClient.config c) = true ->
  SSHConfig.KnownHostsFile (SSHClient.config c) = knownHostsFile ->
  knownHostsFile <> "" ->
  fs !! knownHostsFile = Some content ->
  knownhosts_New content = inl check ->
  addAuthMethods os c = inl auth ->
  net_hostKey net addr = inl (remote, key) ->
  check addr remote key = None ->
  net_auth net auth = None ->
  net_sftp net addr = None ->
  Connect os net c fs
  = ((None, setConnected c (Some addr) (Some addr) true), fs).
Proof.
  intros addr Hc Hstrict Hfile Hne Hfs Hnew Hauth Hkey Hcheck Haccept Hsftp.
  rewrite (Connect_eq c fs Hc).
  rewrite (createHostKeyCallback_strict os c fs knownHostsFile content check)
    by done.
  rewrite Hauth. fold addr. unfold ssh_Dial. rewrite Hkey.
  unfold bind, wrapHostKeyCallback, bind, ret. rewrite Hcheck.
  by rewrite Haccept, Hsftp.
Qed.

(** With strict host checking and no known-hosts file at the configured
    path, the file is created empty and the check is built from the empty
    file, when the operating system lets the file be made. *)
Theorem known_hosts_file_is_created (c : SSHClient.t) (fs : FS)
  (knownHostsFile : string) (check : KnownHostsCheck) :
  SSHConfig.StrictHostCheck (SSHClient.config c) = true ->
  SSHConfig.KnownHostsFile (SSHClient.config c) = knownHostsFile ->
  knownHostsFile <> "" ->
  fs !! knownHostsFile = None ->
  os_MkdirAll os (filepath_Dir knownHostsFile) = None ->
  os_Create os knownHostsFile = None ->
  os_Chmod os knownHostsFile = None ->
  knownhosts_New "" = inl check ->
  createHostKeyCallback os c fs
  = (inl (wrapHostKeyCallback os
            (fun hostname remote key => ret (check hostname remote key))
            knownHostsFile),
     <[knownHostsFile := ""]> fs).
Proof.
  intros Hstrict Hfile Hne Hfs Hmk Hcreate Hchmod Hnew.
  unfold createHostKeyCallback. rewrite Hstrict, Hfile. simpl.
  apply String.eqb_neq in Hne. rewrite Hne.
  unfold bind. rewrite Hfs. unfold createKnownHostsFile.
  rewrite Hmk, Hcreate, Hchmod. unfold ret.
  by rewrite lookup_insert_eq, Hnew.
Qed.

(** When the permissions of the new known-hosts file cannot be set,
    [createHostKeyCallback] fails, and the empty file stays behind. *)
Theorem known_hosts_file_left_behind (c : SSHClient.t) (fs : FS)
  (knownHostsFile : string) (err : error) :
  SSHConfig.StrictHostCheck (SSHClient.config c) = true ->
  SSHConfig.KnownHostsFile (SSHClient.config c) = knownHostsFile ->
  knownHostsFile <> "" ->
  fs !! knownHostsFile = None ->
  os_MkdirAll os (filepath_Dir knownHostsFile) = None ->
  os_Create os knownHostsFile = None ->
  os_Chmod os knownHostsFile = Some err ->
  createHostKeyCallback os c fs
  = (inr (Errorf "Errorf: " err), <[knownHostsFile := ""]> fs).
Proof.
  intros Hstrict Hfile Hne Hfs Hmk Hcreate Hchmod.
  unfold createHostKeyCallback. rewrite Hstrict, Hfile. simpl.
  apply String.eqb_neq in Hne. rewrite Hne.
  unfold bind. rewrite Hfs. unfold createKnownHostsFile.
  by rewrite Hmk, Hcreate, Hchmod.
Qed.

(** Without a password, a key file and an agent socket there is no
    credential: [addAuthMethods] fails and so does [Connect], before the
    host is dialled. *)
Theorem no_credential (c : SSHClient.t) (fs : FS) :
  SSHClient.connected c = false ->
  SSHConfig.Password (SSHClient.config c) = "" ->
  SSHConfig.KeyFile (SSHClient.config c) = "" ->
  os_Getenv os "SSH_AUTH_SOCK" = "" ->
  addAuthMethods os c = inr (errorString "null")
  /\ is_Some (Connect os net c fs).1.1
  /\ (Connect os net c fs).1.2 = c.
Proof.
  intros Hc Hpw Hkey Hsock.
  assert (Hauth : addAuthMethods os c = inr (errorString "null")).
  { unfold addAuthMethods, sshAgentAuth. by rewrite Hpw, Hkey, Hsock. }
  split; [done|]. rewrite (Connect_eq c fs Hc), Hauth.
  destruct (createHostKeyCallback os c fs) as [[callback|err] fs1];
    simpl; split; by eauto.
Qed.

(** A key file that cannot be read is fatal: [addAuthMethods] fails even
    when a password is configured and an agent is available. *)
Theorem unreadable_key_is_fatal (c : SSHClient.t) (err : error) :
  SSHConfig.KeyFile (SSHClient.config c) <> "" ->
  os_ReadFile os (SSHConfig.KeyFile (SSHClient.config c)) = inr err ->
  addAuthMethods os c = inr (Errorf "Errorf; " err).
Proof.
  intros Hkey Hread. unfold addAuthMethods, loadPrivateKey.
  apply String.eqb_neq in Hkey. by rewrite Hkey, Hread.
Qed.

(** A key that does not parse is tried again with the password as its
    passphrase, and only when a password is configured. *)
Theorem encrypted_key_uses_password (c : SSHClient.t) (keyPath pem : string)
  (err : error) :
  os_ReadFile os keyPath = inl pem ->
  ssh_ParsePrivateKey pem = inr err ->
  loadPrivateKey os c keyPath
  = if String.eqb (SSHConfig.Password (SSHClient.config c)) "" then inr err
    else ssh_ParsePrivateKeyWithPassphrase pem
           (SSHConfig.Password (SSHClient.config c)).
Proof.
  intros Hread Hparse. unfold loadPrivateKey. rewrite Hread, Hparse.
  by destruct (String.eqb _ "").
Qed.

Lemma append_empty (s : string) : s +:+ "" = s.
Proof.
  induction s as [|c s IH]; [done|].
  change (String c (s +:+ "") = String c s). by rewrite IH.
Qed.

Lemma substring_none (s : string) : String.substring 0 0 s = "".
Proof. by destruct s. Qed.

(** [addHostKey] touches no other file and never creates the known-hosts
    file: a missing file, or one that cannot be opened, is an error that
    leaves every file as it was. On an existing file the old content is
    never lost: when nil is returned the file has grown by the entry and a
    newline, and when the write fails it has grown by what the write had
    written, a prefix of that line. *)
Theorem addHostKey_appends (knownHostsFile hostname : string)
  (key : PublicKey) (fs : FS) :
  let run := addHostKey os knownHostsFile hostname key fs in
  let line := hostKeyEntry hostname key +:+ nl in
  (forall other, other <> knownHostsFile -> run.2 !! other = fs !! other)
  /\ (fs !! knownHostsFile = None -> is_Some run.1 /\ run.2 = fs)
  /\ (is_Some (os_OpenFile os knownHostsFile) -> is_Some run.1 /\ run.2 = fs)
  /\ (forall content,
         fs !! knownHostsFile = Some content ->
         (run.1 = None -> run.2 !! knownHostsFile = Some (content +:+ line))
         /\ (is_Some run.1 ->
             exists n,
               run.2 !! knownHostsFile
               = Some (content +:+ String.substring 0 n line))).
Proof.
  intros run line. subst run line. unfold addHostKey. fold nl.
  destruct (fs !! knownHostsFile) as [content|] eqn:Hfs; simpl.
  2:{ split; [done|]. split; [by eauto|]. split; [by eauto|]. done. }
  destruct (os_OpenFile os knownHostsFile) as [openErr|] eqn:Hopen; simpl.
  { split; [done|]. split; [done|]. split; [by eauto|].
    intros ? [= <-]. split; [done|]. intros _. exists 0%nat.
    by rewrite Hfs, substring_none, append_empty. }
  destruct (os_WriteString os knownHostsFile _) as [writeErr|]; simpl.
  - split; [intros other Hne; by rewrite lookup_insert_ne|].
    split; [done|]. split; [by intros [? [=]]|].
    intros ? [= <-]. split; [done|]. intros _.
    eexists. by rewrite lookup_insert_eq.
  - split; [intros other Hne; by rewrite lookup_insert_ne|].
    split; [done|]. split; [by intros [? [=]]|].
    intros ? [= <-]. split; [intros _; by rewrite lookup_insert_eq|].
    by intros [? [=]].
Qed.

End ConnectFacts.

Section CloseFacts.
Variable W : World.

Lemma Close_disconnects (k : Closing) (c : SSHClient.t) :
  SSHClient.connected (Close k c).2 = false.
Proof. unfold Close. by destruct (SSHClient.connected c) eqn:Hc. Qed.

(** [Close] always leaves the client unconnected, returns nil on a client
    that is not connected, and so returns nil when called again. *)
Theorem Close_idempotent (k k' : Closing) (c : SSHClient.t) :
  SSHClient.connected (Close k c).2 = false
  /\ Close k' (Close k c).2 = (None, (Close k c).2)
  /\ SSHClient.config (Close k c).2 = SSHClient.config c.
Proof.
  unfold Close. destruct (SSHClient.connected c) eqn:Hc; simpl.
  - done.
  - by rewrite Hc.
Qed.

(** When closing the session fails, [Close] returns that error, also when
    closing the file-transfer channel has failed before it; the client is
    unconnected all the same. *)
Theorem Close_reports_session_error (k : Closing) (c : SSHClient.t)
  (session : string) (err : error) :
  SSHClient.connected c = true ->
  SSHClient.sshClient c = Some session ->
  close_ssh k = Some err ->
  (Close k c).1 = Some err /\ SSHClient.connected (Close k c).2 = false.
Proof.
  intros Hc Hssh Hclose. unfold Close. by rewrite Hc, Hssh, Hclose.
Qed.

(** After [Close] every operation of the client fails without reaching
    the remote host. *)
Theorem closed_client_refuses (k : Closing) (c : SSHClient.t) (t : Trace)
  (command localPath remotePath : string) :
  let closed := (Close k c).2 in
  (ExecuteCommand W closed command t).1 = ("", Some (errorString "ssh is error"))
  /\ (UploadFile W closed localPath remotePath t).1
     = Some (errorString "SSH is error")
  /\ (DownloadFile W closed remotePath localPath t).1
     = Some (errorString "ssh is null")
  /\ (FIleExists W closed remotePath t).1
     = (false, Some (errorString "ssh is null")).
Proof.
  intros closed.
  assert (Hc : SSHClient.connected closed = false)
    by apply (Close_disconnects k c).
  unfold ExecuteCommand, execResult, UploadFile, uploadResult, DownloadFile,
    downloadResult, FIleExists. simpl. by rewrite Hc.
Qed.

End CloseFacts.

Lemma Connect_connected_iff_witness :
  let run :=
    Connect (std := stubStd) (xssh := stubSSH "knownhosts: key is unknown")
      stubOS (dialNet keyA) colonClient pinnedColonFS in
  run.1.1 = None <-> SSHClient.connected run.1.2 = true.
Proof.
  destruct (Connect_connected_iff
              (std := stubStd) (xssh := stubSSH "knownhosts: key is unknown")
              stubOS (dialNet keyA) colonClient pinnedColonFS eq_refl)
    as [Hiff _].
  exact Hiff.
Defined.

Lemma Connect_without_strict_check_witness :
  Connect (std := stubStd) (xssh := stubSSH "knownhosts: key is unknown")
    stubOS (dialNet keyB) laxColonClient pinnedColonFS
  = ((None,
      setConnected laxColonClient (Some "example.com:22")
        (Some "example.com:22") true),
     pinnedColonFS).
Proof.
  destruct (Connect_without_strict_check
              (std := stubStd) (xssh := stubSSH "knownhosts: key is unknown")
              stubOS (dialNet keyB) laxColonClient pinnedColonFS eq_refl)
    as [_ Hok].
  apply (Hok [Password "secret"] "203.0.113.7:22" keyB); reflexivity.
Defined.

Lemma Connect_accepts_known_key_witness :
  Connect (std := stubStd) (xssh := stubSSH "knownhosts: key is unknown")
    stubOS (dialNet keyA) colonClient pinnedColonFS
  = ((None,
      setConnected colonClient (Some "example.com:22")
        (Some "example.com:22") true),
     pinnedColonFS).
Proof.
  apply (Connect_accepts_known_key
           (std := stubStd) (xssh := stubSSH "knownhosts: key is unknown")
           stubOS (dialNet keyA) colonClient pinnedColonFS "/kh"
           ("example.com:22 ssh-ed25519 AAAAC3A" +:+ nl)
           (stubCheck "knownhosts: key is unknown"
              ("example.com:22 ssh-ed25519 AAAAC3A" +:+ nl))
           [Password "secret"] "203.0.113.7:22" keyA).
  all: try (vm_compute; reflexivity).
  discriminate.
Defined.

Lemma known_hosts_file_is_created_witness :
  (createHostKeyCallback (std := stubStd)
     (xssh := stubSSH "knownhosts: key is unknown") stubOS freshClient ∅).2
  = <["/kh" := ""]> ∅.
Proof.
  rewrite (known_hosts_file_is_created
             (std := stubStd) (xssh := stubSSH "knownhosts: key is unknown")
             stubOS freshClient ∅ "/kh"
             (stubCheck "knownhosts: key is unknown" "")
             eq_refl eq_refl ltac:(discriminate) eq_refl eq_refl eq_refl
             eq_refl eq_refl).
  reflexivity.
Defined.

Lemma known_hosts_file_left_behind_witness :
  createHostKeyCallback (std := stubStd)
    (xssh := stubSSH "knownhosts: key is unknown") restrictedOS freshClient ∅
  = (inr (Errorf "Errorf: " (errorString "operation not permitted")),
     <["/kh" := ""]> ∅).
Proof.
  apply (known_hosts_file_left_behind
           (std := stubStd) (xssh := stubSSH "knownhosts: key is unknown")
           restrictedOS freshClient ∅ "/kh"
           (errorString "operation not permitted")
           eq_refl eq_refl ltac:(discriminate) eq_refl eq_refl eq_refl
           eq_refl).
Defined.

Lemma no_credential_witness :
  addAuthMethods (xssh := stubSSH "knownhosts: key is unknown")
    stubOS anonymousClient
  = inr (errorString "null").
Proof.
  destruct (no_credential
              (std := stubStd) (xssh := stubSSH "knownhosts: key is unknown")
              stubOS (dialNet keyA) anonymousClient pinnedFS
              eq_refl eq_refl eq_refl eq_refl) as [Hauth _].
  exact Hauth.
Defined.

Lemma unreadable_key_is_fatal_witness :
  addAuthMethods (xssh := stubSSH "knownhosts: key is unknown")
    restrictedOS keyClient
  = inr (Errorf "Errorf; " (errorString "permission denied")).
Proof.
  apply (unreadable_key_is_fatal
           (xssh := stubSSH "knownhosts: key is unknown")
           restrictedOS keyClient (errorString "permission denied")).
  - discriminate.
  - reflexivity.
Defined.

Lemma encrypted_key_uses_password_witness :
  loadPrivateKey (xssh := encryptedSSH) stubOS keyClient "/id_ed25519"
  = inl (mkSigner "secret").
Proof.
  rewrite (encrypted_key_uses_password (xssh := encryptedSSH)
             stubOS keyClient "/id_ed25519" ""
             (errorString "ssh: this private key is passphrase protected")
             eq_refl eq_refl).
  reflexivity.
Defined.

Lemma addHostKey_appends_witness :
  (addHostKey (std := stubStd) stubOS "/kh" "example.com:22" keyB emptyFS).2
    !! "/kh"
  = Some ("" +:+ (hostKeyEntry (std := stubStd) "example.com:22" keyB +:+ nl))
  /\ exists n,
       (addHostKey (std := stubStd) fullDiskOS "/kh" "example.com:22" keyB
          pinnedColonFS).2 !! "/kh"
       = Some (("example.com:22 ssh-ed25519 AAAAC3A" +:+ nl)
               +:+ String.substring 0 n
                     (hostKeyEntry (std := stubStd) "example.com:22" keyB
                      +:+ nl)).
Proof.
  split.
  - destruct (addHostKey_appends (std := stubStd) stubOS "/kh"
                "example.com:22" keyB emptyFS) as (_ & _ & _ & Hgrow).
    destruct (Hgrow "" eq_refl) as [Hok _]. exact (Hok eq_refl).
  - destruct (addHostKey_appends (std := stubStd) fullDiskOS "/kh"
                "example.com:22" keyB pinnedColonFS) as (_ & _ & _ & Hgrow).
    destruct (Hgrow ("example.com:22 ssh-ed25519 AAAAC3A" +:+ nl) eq_refl)
      as [_ Hfail].
    apply Hfail. eexists. reflexivity.
Defined.

(** The disk fills up after seven bytes: the known-hosts file ends in a
    truncated entry. *)
Example addHostKey_partial_write :
  addHostKey (std := stubStd) fullDiskOS "/kh" "example.com:22" keyB
    pinnedColonFS
  = (Some (errorString "no space left on device"),
     {[ "/kh" := "example.com:22 ssh-ed25519 AAAAC3A" +:+ nl +:+ "example" ]}).
Proof. vm_compute. reflexivity. Qed.

Lemma Close_reports_session_error_witness :
  (Close failingClose stubClient).1
  = Some (errorString "ssh: connection lost")
  /\ SSHClient.connected (Close failingClose stubClient).2 = false.
Proof.
  apply (Close_reports_session_error failingClose stubClient
           "example.com22" (errorString "ssh: connection lost")
           eq_refl eq_refl eq_refl).
Defined.
